(** * testutil: WaitFor, ShouldCrash and CaptureStdout

    A shallow embedding of the three helpers of [testutil.go] that carry
    control flow, and the properties their documentation promises.

    The helpers are effectful: they call back into the test ([try], [fail],
    [printFunction]), read the clock, spawn a child process, end the process
    and rebind the package variable [os.Stdout].  They are written here in a
    small monad over the state of the running process, whose outcomes are the
    ones a Go call can have: it returns, the process exits, or it panics. *)

From Stdlib Require Import ZArith List Ascii String Bool Lia.
From ExtLib Require Import Structures.Monad.
Import ListNotations.
Import MonadNotation.

Local Open Scope string_scope.
Local Open Scope list_scope.
Local Open Scope Z_scope.
Local Open Scope monad_scope.

(** ** Values of the Go standard library that the helpers handle *)

(** [time.Time], as the reading of the monotonic clock in nanoseconds, and
    [time.Duration], a signed 64-bit count of nanoseconds. *)
Definition Time := Z.
Definition Duration := Z.

Definition minDuration : Duration := - 2 ^ 63.
Definition maxDuration : Duration := 2 ^ 63 - 1.

(** [t.Sub(u)]: the difference [t - u], which saturates at the two ends of
    the 64-bit range instead of wrapping around. *)
Definition Sub (t u : Time) : Duration :=
  if t - u >? maxDuration then maxDuration
  else if t - u <? minDuration then minDuration
  else t - u.

(** An [os.File], by its descriptor. *)
Definition File := Z.

(** [os.ProcessState]: how a child that was started came to its end. *)
Inductive ProcessState :=
| WExited (status : Z)
| WSignaled (signal : Z).

(** [ps.ExitCode()] is the exit status, or -1 when the child did not exit by
    itself; [ps.Success()] holds for exit status 0 only. *)
Definition ExitCode (ps : ProcessState) : Z :=
  match ps with
  | WExited status => status
  | WSignaled _ => -1
  end.

Definition Success (ps : ProcessState) : bool := ExitCode ps =? 0.

(** The dynamic types of the [error] values these helpers meet:
    [exec.ExitError] (by pointer), which wraps a process state, and any other error.
    A Go [error] is [nil] or one of those. *)
Inductive Err :=
| ExitError (ps : ProcessState)
| OtherError (msg : string).

Definition error := option Err.
Definition nil : error := None.

(** [exec.Cmd], with the three fields the helper fills in. *)
Record Cmd := mkCmd {
  Path : string;
  Args : list string;
  Env : list string
}.

(** [exec.Command(name, arg...)], for a name with a path separator in it,
    as the [os.Args[0]] of a test binary has; a bare name would first be
    looked up in the directories of PATH. *)
Definition exec_Command (name : string) (arg : list string) : Cmd :=
  {| Path := name; Args := name :: arg; Env := [] |}.

Definition set_Env (c : Cmd) (env : list string) : Cmd :=
  {| Path := Path c; Args := Args c; Env := env |}.

(** What became of a command that [cmd.Run()] was asked to run. *)
Inductive ChildResult :=
| ChildExited (status : Z)
| ChildSignaled (signal : Z)
| ChildNotStarted (reason : string).

(** The error [cmd.Run()] reports, after the documentation of os/exec: [nil]
    when the command ran and exited with status 0, an [exec.ExitError] when
    it started but did not complete successfully, another error when it
    could not be started. *)
Definition Run_error (r : ChildResult) : error :=
  match r with
  | ChildExited status =>
      if status =? 0 then nil else Some (ExitError (WExited status))
  | ChildSignaled signal => Some (ExitError (WSignaled signal))
  | ChildNotStarted reason => Some (OtherError reason)
  end.

(** ** The environment block *)

(** The value of [key] in a block of [key=value] entries, the empty string
    when there is none ([os.Getenv]). *)
Definition entry_value (key entry : string) : option string :=
  let k := (key ++ "=")%string in
  if String.prefix k entry
  then Some (String.substring (String.length k)
                              (String.length entry - String.length k) entry)
  else None.

Fixpoint lookup_env (key : string) (env : list string) : string :=
  match env with
  | [] => ""
  | entry :: rest =>
      match entry_value key entry with
      | Some v => v
      | None => lookup_env key rest
      end
  end.

(** ** The running process *)

(** The calls a helper makes to the outside, in the order it makes them.
    The trace is ghost state: no helper reads it, and the callbacks cannot
    reach it. *)
Inductive Event :=
| EvNow (t : Time)
| EvTry
| EvFail
| EvRun (c : Cmd)
| EvExit (code : Z)
| EvPrint.

Definition is_fail (e : Event) : bool :=
  match e with EvFail => true | _ => false end.

Definition is_try (e : Event) : bool :=
  match e with EvTry => true | _ => false end.

Definition is_run (e : Event) : bool :=
  match e with EvRun _ => true | _ => false end.

Definition is_now (e : Event) : bool :=
  match e with EvNow _ => true | _ => false end.

Definition calls (which : Event -> bool) (tr : list Event) : nat :=
  List.length (List.filter which tr).

(** How a Go call ends.  [Exited] is [os.Exit]: the process is gone and no
    deferred call runs.  [Panicked] unwinds through the deferred calls.
    [OutOfFuel] is the bound of the model on a call that is still running,
    with the state it has reached. *)
Inductive Outcome (St A : Type) :=
| Returned (a : A) (s : St)
| Exited (code : Z) (s : St)
| Panicked (msg : string) (s : St)
| OutOfFuel (s : St).

Arguments Returned {St A} a s.
Arguments Exited {St A} code s.
Arguments Panicked {St A} msg s.
Arguments OutOfFuel {St A} s.

(** The state in which a call ends. *)
Definition final {St A} (o : Outcome St A) : St :=
  match o with
  | Returned _ s | Exited _ s | Panicked _ s | OutOfFuel s => s
  end.

(** Whether a call is still running when the model stops following it. *)
Definition still_running {St A} (o : Outcome St A) : bool :=
  match o with
  | OutOfFuel _ => true
  | _ => false
  end.

Section Process.

(** The machine around the process (clock, file table, other processes)
    and the system calls the helpers make on it. *)
Variable Sys : Type.
Variable clock_read : Sys -> Time * Sys.
Variable spawn : Cmd -> Sys -> ChildResult * Sys.
Variable pipe : Sys -> (File * File * error) * Sys.
Variable close : File -> Sys -> error * Sys.
Variable read_all : File -> Sys -> (string * error) * Sys.

(** The state a Go function of the process can read and write: the package
    variables [os.Stdout] and [os.Args], the environment block, and the
    machine. *)
Record Proc := mkProc {
  os_Stdout : File;
  os_Args : list string;
  environ : list string;
  sys : Sys
}.

Record World := mkWorld {
  proc : Proc;
  trace : list Event
}.

(** A function value passed in by the test: it runs on the process state
    and ends like any Go call. *)
Definition Callback (A : Type) : Type := Proc -> Outcome Proc A.

Definition M (A : Type) : Type := World -> Outcome World A.

Definition M_ret {A} (a : A) : M A := fun w => Returned a w.

Definition M_bind {A B} (c : M A) (k : A -> M B) : M B :=
  fun w =>
    match c w with
    | Returned a w' => k a w'
    | Exited code w' => Exited code w'
    | Panicked msg w' => Panicked msg w'
    | OutOfFuel w' => OutOfFuel w'
    end.

#[local] Instance Monad_M : Monad M :=
  {| ret := @M_ret; bind := @M_bind |}.

Definition emit (e : Event) : M unit :=
  fun w => Returned tt {| proc := proc w; trace := trace w ++ [e] |}.

(** The outcome of a callback, seen from the helper that called it. *)
Definition with_trace {A} (tr : list Event) (o : Outcome Proc A)
  : Outcome World A :=
  match o with
  | Returned a p => Returned a {| proc := p; trace := tr |}
  | Exited code p => Exited code {| proc := p; trace := tr |}
  | Panicked msg p => Panicked msg {| proc := p; trace := tr |}
  | OutOfFuel p => OutOfFuel {| proc := p; trace := tr |}
  end.

Definition call {A} (f : Callback A) : M A :=
  fun w => with_trace (trace w) (f (proc w)).

Definition invoke {A} (e : Event) (f : Callback A) : M A :=
  emit e ;; call f.

(** A system call changes the machine and nothing else of the process. *)
Definition set_sys (p : Proc) (s : Sys) : Proc :=
  {| os_Stdout := os_Stdout p; os_Args := os_Args p;
     environ := environ p; sys := s |}.

Definition on_proc {A} (op : Sys -> A * Sys) (p : Proc) : A * Proc :=
  let (a, s) := op (sys p) in (a, set_sys p s).

Definition syscall {A} (op : Sys -> A * Sys) : M A :=
  fun w =>
    let (a, p) := on_proc op (proc w) in
    Returned a {| proc := p; trace := trace w |}.

Definition out_of_fuel {A} : M A := fun w => OutOfFuel w.

Definition panic {A} (msg : string) : M A := fun w => Panicked msg w.

(** [os.Exit(code)]. *)
Definition os_Exit {A} (code : Z) : M A :=
  fun w => Exited code {| proc := proc w; trace := trace w ++ [EvExit code] |}.

(** [time.Now()]. *)
Definition time_Now : M Time :=
  t <- syscall clock_read ;;
  emit (EvNow t) ;;
  ret t.

(** *** WaitFor *)

(** The [for] loop of [WaitFor]; [fuel] bounds the number of rounds. *)
Fixpoint WaitFor_loop (fuel : nat) (try : Callback bool)
         (fail : Callback unit) (timeout : Duration) (start : Time)
  : M unit :=
  match fuel with
  | O => out_of_fuel
  | S fuel' =>
      ready <- invoke EvTry try ;;
      if ready : bool then ret tt
      else
        now <- time_Now ;;
        if Sub now start >? timeout then invoke EvFail fail
        else WaitFor_loop fuel' try fail timeout start
  end.

Definition WaitFor (fuel : nat) (try : Callback bool)
           (fail : Callback unit) (timeout : Duration) : M unit :=
  start <- time_Now ;;
  WaitFor_loop fuel try fail timeout start.

(** *** ShouldCrash *)

(** [os.Getenv(key)], [os.Environ()] and the index expression
    [os.Args[i]], which panics out of range. *)
Definition os_Getenv (key : string) : M string :=
  fun w => Returned (lookup_env key (environ (proc w))) w.

Definition os_Environ : M (list string) :=
  fun w => Returned (environ (proc w)) w.

Definition os_Args_index (i : nat) : M string :=
  fun w =>
    match nth_error (os_Args (proc w)) i with
    | Some a => Returned a w
    | None => Panicked "index out of range" w
    end.

(** [cmd.Run()]: starts the command, waits for it, reports how it went. *)
Definition Cmd_Run (c : Cmd) : M error :=
  emit (EvRun c) ;;
  r <- syscall (spawn c) ;;
  ret (Run_error r).

(** The two-result type assertion of an [error] to [exec.ExitError]: the
    wrapped value when the dynamic type fits, nothing otherwise. *)
Definition as_ExitError (err : error) : option ProcessState :=
  match err with
  | Some (ExitError e) => Some e
  | _ => None
  end.

Definition ShouldCrash (testName : string) (try fail : Callback unit)
  : M unit :=
  marker <- os_Getenv "SHOULD_CRASH" ;;
  (if String.eqb marker "1"
   then invoke EvTry try ;; os_Exit 0
   else ret tt) ;;
  argv0 <- os_Args_index 0 ;;
  let cmd := exec_Command argv0 [("-test.run=" ++ testName)%string] in
  env <- os_Environ ;;
  let cmd := set_Env cmd (env ++ ["SHOULD_CRASH=1"]) in
  err <- Cmd_Run cmd ;;
  match as_ExitError err with
  | Some e => if negb (Success e) then ret tt else invoke EvFail fail
  | None => invoke EvFail fail
  end.

(** *** CaptureStdout *)

Definition get_Stdout : M File :=
  fun w => Returned (os_Stdout (proc w)) w.

Definition with_Stdout (p : Proc) (f : File) : Proc :=
  {| os_Stdout := f; os_Args := os_Args p;
     environ := environ p; sys := sys p |}.

Definition set_Stdout (f : File) : M unit :=
  fun w => Returned tt {| proc := with_Stdout (proc w) f; trace := trace w |}.

(** [defer d] before [body]: [d] runs when [body] returns and when it
    panics, not when the process exits; the result of [body] stands unless
    [d] itself does not return. *)
Definition defer {A} (d : M unit) (body : M A) : M A :=
  fun w =>
    match body w with
    | Returned a w' => (d ;; ret a) w'
    | Panicked msg w' => (d ;; panic msg) w'
    | Exited code w' => Exited code w'
    | OutOfFuel w' => OutOfFuel w'
    end.

Definition os_Pipe : M (File * File * error) := syscall pipe.
Definition File_Close (f : File) : M error := syscall (close f).
Definition io_Copy (src : File) : M (string * error) := syscall (read_all src).

Definition CaptureStdout (printFunction : Callback error)
  : M (string * error) :=
  '(r, w, err) <- os_Pipe ;;
  match err with
  | Some _ => ret ("", err)
  | None =>
      originalStdOut <- get_Stdout ;;
      set_Stdout w ;;
      defer (set_Stdout originalStdOut)
        (err <- invoke EvPrint printFunction ;;
         match err with
         | Some _ => ret ("", err)
         | None =>
             err <- File_Close w ;;
             match err with
             | Some _ => ret ("", err)
             | None =>
                 '(buf, err) <- io_Copy r ;;
                 match err with
                 | Some _ => ret ("", err)
                 | None => ret (buf, nil)
                 end
             end
         end)
  end.

End Process.

Arguments mkProc {Sys} _ _ _ _.
Arguments os_Stdout {Sys} _.
Arguments os_Args {Sys} _.
Arguments environ {Sys} _.
Arguments sys {Sys} _.
Arguments mkWorld {Sys} _ _.
Arguments proc {Sys} _.
Arguments trace {Sys} _.
Arguments set_sys {Sys} p s.
Arguments on_proc {Sys A} op p.
Arguments with_Stdout {Sys} p f.
Arguments with_trace {Sys A} tr o.
Arguments WaitFor_loop {Sys} clock_read fuel try fail timeout start _.
Arguments WaitFor {Sys} clock_read fuel try fail timeout _.
Arguments ShouldCrash {Sys} spawn testName try fail _.
Arguments CaptureStdout {Sys} pipe close read_all printFunction _.

(** The events of [k] polling rounds that found the probe false, the rounds
    numbered from [j]; [t i] is the clock reading of round [i]. *)
Fixpoint rounds (t : nat -> Time) (j k : nat) : list Event :=
  match k with
  | O => []
  | S k' => EvTry :: EvNow (t j) :: rounds t (S j) k'
  end.

(** The shape of what one call of [WaitFor] adds to the trace after its
    first clock reading [start]: rounds of a probe call and a clock reading
    within [timeout] of [start]; then a last probe call alone, or a probe
    call, a reading more than [timeout] after [start] and the call of
    [fail]. *)
Fixpoint paced_by (start : Time) (timeout : Duration) (evs : list Event)
  : bool :=
  match evs with
  | [] => true
  | [EvTry] => true
  | EvTry :: EvNow now :: rest =>
      if Sub now start >? timeout
      then match rest with [EvFail] => true | _ => false end
      else paced_by start timeout rest
  | _ => false
  end.

(** The command the parent role of [ShouldCrash] builds: the running binary
    again, restricted to the named test, with the marker added to the
    environment. *)
Definition child_command (testName : string) (env : list string)
           (argv0 : string) : Cmd :=
  {| Path := argv0;
     Args := [argv0; ("-test.run=" ++ testName)%string];
     Env := env ++ ["SHOULD_CRASH=1"] |}.

(** ** A machine to run the helpers on

    A small machine for concrete runs: a clock that a reading advances by one
    nanosecond, commands that all end the way [child] says, a terminal behind
    descriptor 1, and one pipe (read end 3, write end 4) whose operations
    fail or not as the machine is set up. *)
Record Machine := mkMachine {
  ticks : Time;
  child : ChildResult;
  pipe_error : error;
  close_error : error;
  copy_error : error;
  piped : string;
  terminal : string
}.

Definition at_time (m : Machine) (t : Time) : Machine :=
  {| ticks := t; child := child m; pipe_error := pipe_error m;
     close_error := close_error m; copy_error := copy_error m;
     piped := piped m; terminal := terminal m |}.

Definition with_child (m : Machine) (r : ChildResult) : Machine :=
  {| ticks := ticks m; child := r; pipe_error := pipe_error m;
     close_error := close_error m; copy_error := copy_error m;
     piped := piped m; terminal := terminal m |}.

Definition machine_clock_read (m : Machine) : Time * Machine :=
  (ticks m, at_time m (ticks m + 1)).

Definition machine_spawn (c : Cmd) (m : Machine) : ChildResult * Machine :=
  (child m, m).

Definition machine_pipe (m : Machine) : (File * File * error) * Machine :=
  match pipe_error m with
  | Some e => ((0, 0, Some e), m)
  | None => ((3, 4, nil), m)
  end.

Definition machine_close (f : File) (m : Machine) : error * Machine :=
  (close_error m, m).

Definition machine_read_all (f : File) (m : Machine)
  : (string * error) * Machine :=
  ((piped m, copy_error m), m).

Definition machine_write (f : File) (data : string) (m : Machine) : Machine :=
  {| ticks := ticks m; child := child m; pipe_error := pipe_error m;
     close_error := close_error m; copy_error := copy_error m;
     piped := if f =? 4 then (piped m ++ data)%string else piped m;
     terminal := if f =? 1 then (terminal m ++ data)%string else terminal m |}.

(** A machine at time 10 on which nothing fails, and a test process on it
    with a given environment block. *)
Definition machine0 : Machine :=
  {| ticks := 10; child := ChildExited 0; pipe_error := nil;
     close_error := nil; copy_error := nil; piped := ""; terminal := "" |}.

(** The same machine with a pipe whose creation, closing and reading end as
    given. *)
Definition failing (pe ce re : error) : Machine :=
  {| ticks := 10; child := ChildExited 0; pipe_error := pe;
     close_error := ce; copy_error := re; piped := ""; terminal := "" |}.

Definition process_on (m : Machine) (env : list string) : World Machine :=
  {| proc := {| os_Stdout := 1; os_Args := ["/tmp/testutil.test"; "-test.v"];
                environ := env; sys := m |};
     trace := [] |}.

(** Callbacks for the runs: probes that are never ready, ready at once, and
    ready once the clock has reached a given time; a callback that returns
    and one that ends the process as [log.Fatal] does; a print function that
    writes a line to [os.Stdout] and one that fails. *)
Definition never_ready : Callback Machine bool :=
  fun p => Returned false p.

Definition ready_at_once : Callback Machine bool :=
  fun p => Returned true p.

Definition ready_from (t : Time) : Callback Machine bool :=
  fun p => Returned (t <=? ticks (sys p)) p.

Definition returns : Callback Machine unit :=
  fun p => Returned tt p.

Definition log_Fatal : Callback Machine unit :=
  fun p => Exited 1 p.

Definition fmt_Print (text : string) : Callback Machine error :=
  fun p => Returned nil (set_sys p (machine_write (os_Stdout p) text (sys p))).

Definition print_fails : Callback Machine error :=
  fun p => Returned (Some (OtherError "short write")) p.

(** The state of the test process on [machine0], with an empty environment
    block, in polling round [i] of a wait that began at time 10. *)
Definition at_tick (i : nat) : Proc Machine :=
  proc (process_on (at_time machine0 (11 + Z.of_nat i)) []).

(** The command the test process builds for its child when the test is
    [ExampleShouldCrash]. *)
Definition child_of_test (env : list string) : Cmd :=
  {| Path := "/tmp/testutil.test";
     Args := ["/tmp/testutil.test"; "-test.run=ExampleShouldCrash"];
     Env := env ++ ["SHOULD_CRASH=1"] |}.

(** ** Setting environment variables *)

Fixpoint has_char (c : Ascii.ascii) (s : string) : bool :=
  match s with
  | EmptyString => false
  | String a s' => Ascii.eqb a c || has_char c s'
  end.

(** The names and values [os.Setenv] accepts: a name is not empty and has no
    [=] and no NUL in it, a value has no NUL. *)
Definition valid_key (key : string) : bool :=
  negb (String.eqb key "")
  && negb (has_char "="%char key)
  && negb (has_char Ascii.zero key).

Definition valid_value (value : string) : bool :=
  negb (has_char Ascii.zero value).

Definition EINVAL : Err := OtherError "invalid argument".

(** The block after [key] has been set to [value]: the entry of [key] is
    replaced where it stands, or a new entry is added at the end. *)
Fixpoint setenv (key value : string) (env : list string) : list string :=
  match env with
  | [] => [(key ++ "=" ++ value)%string]
  | entry :: rest =>
      match entry_value key entry with
      | Some _ => (key ++ "=" ++ value)%string :: rest
      | None => entry :: setenv key value rest
      end
  end.

(** No entry of the block is for [key]. *)
Definition absent (key : string) (env : list string) : bool :=
  forallb (fun entry =>
             match entry_value key entry with
             | Some _ => false
             | None => true
             end) env.

(** A child that did not end with exit status 0 once it was started. *)
Definition crashed (r : ChildResult) : bool :=
  match r with
  | ChildExited status => negb (status =? 0)
  | ChildSignaled _ => true
  | ChildNotStarted _ => false
  end.

(** ** The fake services

    The constructors of the fake S3 and SQS services wait with [WaitFor] for
    the service to answer.  The network and the AWS client library are
    outside this repository: a connection attempt and the two requests are
    system calls of the machine, and a session and a client are the values
    they were made from. *)

Definition sqsEndpoint : string := "http://0.0.0.0:4568".
Definition s3Port : string := "4569".

(** [time.Second], in nanoseconds. *)
Definition Second : Duration := 1000000000.

(** [aws.Config], with the four fields [fakeAWSConfig] sets (pointers, so
    each may be unset). *)
Record aws_Config := mk_aws_Config {
  Region : option string;
  DisableSSL : option bool;
  Endpoint : option string;
  S3ForcePathStyle : option bool
}.

(** [session.New(cfg)], [s3.New(sess)] and [sqs.New(sess)]. *)
Record Session := session_New { Config : aws_Config }.
Record S3 := s3_New { S3_session : Session }.
Record SQS := sqs_New { SQS_session : Session }.

(** A connection of package net, by its descriptor. *)
Definition Conn := Z.

Record FakeS3 := mk_FakeS3 {
  FakeS3_Client : option S3;
  FakeS3_Session : option Session
}.

Record FakeSQS := mk_FakeSQS {
  FakeSQS_Client : option SQS;
  FakeSQS_Session : option Session;
  URL : string
}.

(** A variable captured by a closure lives in the state the closure runs
    on: the machine is paired with it for as long as the closure is in use. *)
Definition with_local {Sys L} (l : L) (p : Proc Sys) : Proc (L * Sys) :=
  {| os_Stdout := os_Stdout p; os_Args := os_Args p;
     environ := environ p; sys := (l, sys p) |}.

Definition local {Sys L} (p : Proc (L * Sys)) : L := fst (sys p).

Definition set_local {Sys L} (p : Proc (L * Sys)) (l : L) : Proc (L * Sys) :=
  set_sys p (l, snd (sys p)).

Definition without_local {Sys L} (p : Proc (L * Sys)) : Proc Sys :=
  {| os_Stdout := os_Stdout p; os_Args := os_Args p;
     environ := environ p; sys := snd (sys p) |}.

Definition beside {Sys L A} (op : Sys -> A * Sys) (ls : L * Sys)
  : A * (L * Sys) :=
  let (a, s) := op (snd ls) in (a, (fst ls, s)).

(** [body] runs with the captured variable [l]; the value the variable
    holds when [body] returns comes back with the result of [body]. *)
Definition capturing {Sys L A} (l : L) (body : M (L * Sys) A)
  : M Sys (A * L) :=
  fun w =>
    match body {| proc := with_local l (proc w); trace := trace w |} with
    | Returned a w' =>
        Returned (a, local (proc w'))
                 {| proc := without_local (proc w'); trace := trace w' |}
    | Exited code w' =>
        Exited code {| proc := without_local (proc w'); trace := trace w' |}
    | Panicked msg w' =>
        Panicked msg {| proc := without_local (proc w'); trace := trace w' |}
    | OutOfFuel w' =>
        OutOfFuel {| proc := without_local (proc w'); trace := trace w' |}
    end.

(** [os.Setenv(key, value)]. *)
Definition os_Setenv {Sys} (key value : string) : M Sys error :=
  fun w =>
    if valid_key key && valid_value value
    then
      let p := proc w in
      Returned nil
               {| proc := {| os_Stdout := os_Stdout p; os_Args := os_Args p;
                             environ := setenv key value (environ p);
                             sys := sys p |};
                  trace := trace w |}
    else Returned (Some EINVAL) w.

(** [log.Fatal] with a text and, or not, an error after it: the line goes to
    the log and the process ends with status 1.  [Fatal] is the function
    value a test passes as a callback, [log_Fatal_here] the call in a
    helper's own body. *)
Definition Fatal {Sys} (log_write : string -> error -> Sys -> unit * Sys)
           (text : string) (err : error) : Callback Sys unit :=
  fun p => Exited 1 (snd (on_proc (log_write text err) p)).

Definition log_Fatal_here {Sys A}
           (log_write : string -> error -> Sys -> unit * Sys)
           (text : string) (err : error) : M Sys A :=
  M_bind Sys (syscall Sys (log_write text err)) (fun _ => os_Exit Sys 1).

Definition with_environ {Sys} (p : Proc Sys) (env : list string) : Proc Sys :=
  {| os_Stdout := os_Stdout p; os_Args := os_Args p;
     environ := env; sys := sys p |}.

(** The environment block once the two keys of the fake services are set. *)
Definition aws_environ (env : list string) : list string :=
  setenv "AWS_SECRET_KEY" "SEKRIT" (setenv "AWS_ACCESS_KEY" "abc123" env).

(** The session and the clients the constructors make for an endpoint. *)
Definition fake_session (endpoint : string) : Session :=
  session_New {| Region := Some "us-east-1";
                 DisableSSL := Some true;
                 Endpoint := Some endpoint;
                 S3ForcePathStyle := Some true |}.

Section Services.

Variable Sys : Type.
Variable clock_read : Sys -> Time * Sys.
Variable log_write : string -> error -> Sys -> unit * Sys.
Variable net_Dial : string -> string -> Sys -> (Conn * error) * Sys.
Variable conn_Close : Conn -> Sys -> error * Sys.
Variable s3_CreateBucket : S3 -> string -> Sys -> error * Sys.
Variable sqs_CreateQueue : SQS -> string -> Sys -> error * Sys.

#[local] Existing Instance Monad_M.

(** [fakeAWSConfig(endpoint)]. *)
Definition fakeAWSConfig (endpoint : string) : M Sys aws_Config :=
  os_Setenv "AWS_ACCESS_KEY" "abc123" ;;
  os_Setenv "AWS_SECRET_KEY" "SEKRIT" ;;
  ret {| Region := Some "us-east-1";
         DisableSSL := Some true;
         Endpoint := Some endpoint;
         S3ForcePathStyle := Some true |}.

(** The probe of [NewFakeS3]: a connection attempt, closed again when it
    succeeds. *)
Definition tryConnect_S3 : Callback Sys bool :=
  fun p =>
    let '(c, err, p1) := on_proc (net_Dial "tcp" (":" ++ s3Port)%string) p in
    match err with
    | None => let (_, p2) := on_proc (conn_Close c) p1 in Returned true p2
    | Some _ => Returned false p1
    end.

Definition NewFakeS3 (fuel : nat) (bucketName : string) : M Sys FakeS3 :=
  WaitFor clock_read fuel tryConnect_S3
          (Fatal log_write "Could not connect to fakes3" nil)
          (3 * Second) ;;
  cfg <- fakeAWSConfig ("http://0.0.0.0:" ++ s3Port)%string ;;
  let session := session_New cfg in
  let client := s3_New session in
  err <- syscall Sys (s3_CreateBucket client bucketName) ;;
  match err with
  | Some _ => log_Fatal_here log_write "Error creating S3 bucket:" err
  | None => ret {| FakeS3_Client := Some client;
                   FakeS3_Session := Some session |}
  end.

(** The probe of [NewFakeSQS].  It captures [s] and [queueName]: each call
    makes a new client from the session of [s], stores it in [s] and asks
    for the queue. *)
Definition tryConnect_SQS (queueName : string)
  : Callback (FakeSQS * Sys) bool :=
  fun p =>
    let s := local p in
    match FakeSQS_Session s with
    | None => Panicked "invalid memory address or nil pointer dereference" p
    | Some session =>
        let client := sqs_New session in
        let p1 := set_local p {| FakeSQS_Client := Some client;
                                 FakeSQS_Session := FakeSQS_Session s;
                                 URL := URL s |} in
        let (err, p2) :=
          on_proc (beside (sqs_CreateQueue client queueName)) p1 in
        Returned (match err with None => true | Some _ => false end) p2
    end.

Definition NewFakeSQS (fuel : nat) (queueName : string) : M Sys FakeSQS :=
  cfg <- fakeAWSConfig sqsEndpoint ;;
  let s := {| FakeSQS_Client := None;
              FakeSQS_Session := Some (session_New cfg);
              URL := "" |} in
  '(_, s) <- capturing s
               (WaitFor (beside clock_read) fuel (tryConnect_SQS queueName)
                  (Fatal (fun text err => beside (log_write text err))
                         "fake_sqs failed to start in a reasonable amount of time"
                         nil)
                  (10 * Second)) ;;
  ret {| FakeSQS_Client := FakeSQS_Client s;
         FakeSQS_Session := FakeSQS_Session s;
         URL := (sqsEndpoint ++ "/" ++ queueName)%string |}.

End Services.

(** ** The fake services on the machine

    For runs of the constructors: a clock that each reading advances by two
    seconds, a server that accepts connections, and a queue service that
    creates queues, from a given time on, a bucket request that succeeds or
    not, and a log that goes to the terminal. *)
Definition machine_slow_clock_read (m : Machine) : Time * Machine :=
  (ticks m, at_time m (ticks m + 2 * Second)).

Definition machine_log_write (text : string) (err : error) (m : Machine)
  : unit * Machine :=
  (tt, machine_write 1 text m).

Definition machine_dial (up_from : Time) (network address : string)
           (m : Machine) : (Conn * error) * Machine :=
  if up_from <=? ticks m
  then ((5, nil), m)
  else ((0, Some (OtherError "connection refused")), m).

Definition machine_conn_close (c : Conn) (m : Machine) : error * Machine :=
  (nil, m).

Definition machine_create_bucket (ok : bool) (client : S3) (name : string)
           (m : Machine) : error * Machine :=
  (if ok then nil else Some (OtherError "bucket already exists"), m).

Definition machine_create_queue (up_from : Time) (client : SQS)
           (name : string) (m : Machine) : error * Machine :=
  (if up_from <=? ticks m
   then nil
   else Some (OtherError "connection refused"), m).

(** The machine after [i + 1] readings of the slow clock, the first taken at
    time 10, and the test process on it in that state. *)
Definition slow_machine (i : nat) : Machine :=
  at_time machine0 (10 + 2 * Second * (Z.of_nat i + 1)).

Definition slow_tick (i : nat) : Proc Machine :=
  proc (process_on (slow_machine i) []).

(** Code under test that ends the process with a given status. *)
Definition exits_with (code : Z) : Callback Machine unit :=
  fun p => Exited code p.

(** The status of a child, as its parent is told it, after [os.Exit(code)]:
    the low eight bits of the code (Unix). *)
Definition wait_status (code : Z) : Z := code mod 256.

(** A probe that ends the process with status 3 once the clock has reached a
    given time, and says no before. *)
Definition crashes_from (t : Time) : Callback Machine bool :=
  fun p => if t <=? ticks (sys p) then Exited 3 p else Returned false p.

(** ** Properties *)

Lemma Sub_bounds (t u : Time) : minDuration <= Sub t u <= maxDuration.
Proof.
  unfold Sub, minDuration, maxDuration.
  destruct (Z.gtb_spec (t - u) (2 ^ 63 - 1));
    destruct (Z.ltb_spec (t - u) (- 2 ^ 63)); lia.
Qed.

Section WaitForProperties.

Variable Sys : Type.
Variable clock_read : Sys -> Time * Sys.
Variables (try : Callback Sys bool) (fail : Callback Sys unit).
Variable timeout : Duration.

Lemma WaitFor_loop_unfold fuel start w :
  WaitFor_loop clock_read (S fuel) try fail timeout start w =
  match try (proc w) with
  | Returned true p =>
      Returned tt {| proc := p; trace := trace w ++ [EvTry] |}
  | Returned false p =>
      let (now, p') := on_proc clock_read p in
      let w' := {| proc := p'; trace := (trace w ++ [EvTry]) ++ [EvNow now] |} in
      if Sub now start >? timeout
      then with_trace (trace w' ++ [EvFail]) (fail p')
      else WaitFor_loop clock_read fuel try fail timeout start w'
  | Exited code p =>
      Exited code {| proc := p; trace := trace w ++ [EvTry] |}
  | Panicked msg p =>
      Panicked msg {| proc := p; trace := trace w ++ [EvTry] |}
  | OutOfFuel p =>
      OutOfFuel {| proc := p; trace := trace w ++ [EvTry] |}
  end.
Proof.
  cbn. unfold M_bind, invoke, call, emit. cbn.
  destruct (try (proc w)) as [[|] p|c p|m p|p]; cbn; try reflexivity.
  unfold syscall; cbn. destruct (on_proc clock_read p) as [tnow p']; cbn.
  unfold M_ret; cbn.
  destruct (Sub tnow start >? timeout); reflexivity.
Qed.

Lemma WaitFor_unfold fuel w :
  WaitFor clock_read fuel try fail timeout w =
  let (start, p) := on_proc clock_read (proc w) in
  WaitFor_loop clock_read fuel try fail timeout start
               {| proc := p; trace := trace w ++ [EvNow start] |}.
Proof.
  unfold WaitFor, time_Now, syscall, emit; cbn; unfold M_bind; cbn.
  destruct (on_proc clock_read (proc w)) as [start p]; reflexivity.
Qed.

(** Fuel only bounds how far the model follows the loop: a run that has
    ended ends the same way with more fuel. *)
Lemma WaitFor_loop_more_fuel start :
  forall (fuel k : nat) (w : World Sys),
    still_running (WaitFor_loop clock_read fuel try fail timeout start w)
    = false ->
    WaitFor_loop clock_read (fuel + k) try fail timeout start w
    = WaitFor_loop clock_read fuel try fail timeout start w.
Proof.
  induction fuel as [|fuel IH]; intros k w Hdone; [discriminate|].
  change (S fuel + k)%nat with (S (fuel + k)).
  rewrite WaitFor_loop_unfold in Hdone. rewrite !WaitFor_loop_unfold.
  destruct (try (proc w)) as [[|] p|c p|m p|p]; try reflexivity.
  destruct (on_proc clock_read p) as [tnow p']. cbv zeta in *.
  destruct (Sub tnow start >? timeout); [reflexivity|].
  apply IH. exact Hdone.
Qed.

(** [k] rounds in which the probe says no and the clock is still within
    the timeout take the loop from round [j] to round [j + k]. *)
Lemma WaitFor_loop_rounds (p q : nat -> Proc Sys) (t : nat -> Time) start :
  forall (k j fuel : nat) (tr : list Event),
    (forall i, (j <= i < j + k)%nat -> try (p i) = Returned false (q i)) ->
    (forall i, (j <= i < j + k)%nat ->
               on_proc clock_read (q i) = (t i, p (S i))) ->
    (forall i, (j <= i < j + k)%nat -> Sub (t i) start <= timeout) ->
    WaitFor_loop clock_read (k + fuel) try fail timeout start
                 {| proc := p j; trace := tr |} =
    WaitFor_loop clock_read fuel try fail timeout start
                 {| proc := p (j + k)%nat; trace := tr ++ rounds t j k |}.
Proof.
  induction k as [|k IH]; intros j fuel tr Htry Hnow Hin.
  - cbn [rounds Nat.add]. rewrite Nat.add_0_r, app_nil_r. reflexivity.
  - replace (S k + fuel)%nat with (S (k + fuel)) by lia.
    rewrite WaitFor_loop_unfold. cbn [proc trace].
    rewrite (Htry j) by lia. rewrite (Hnow j) by lia.
    assert (Hle : Sub (t j) start <= timeout) by (apply Hin; lia).
    destruct (Sub (t j) start >? timeout) eqn:Hgt; [lia|].
    rewrite (IH (S j)).
    + replace (S j + k)%nat with (j + S k)%nat by lia.
      cbn [rounds]. rewrite <- !app_assoc. reflexivity.
    + intros i Hi. apply Htry. lia.
    + intros i Hi. apply Hnow. lia.
    + intros i Hi. apply Hin. lia.
Qed.

Lemma calls_app which (xs ys : list Event) :
  calls which (xs ++ ys) = (calls which xs + calls which ys)%nat.
Proof. unfold calls. rewrite filter_app, length_app. reflexivity. Qed.

Lemma calls_rounds which (t : nat -> Time) k j :
  which EvTry = false -> (forall x, which (EvNow x) = false) ->
  calls which (rounds t j k) = 0%nat.
Proof.
  intros Htry Hnow. revert j.
  induction k as [|k IH]; intros j; [reflexivity|].
  unfold calls in *. cbn [rounds filter]. rewrite Htry, Hnow. apply IH.
Qed.

Lemma calls_try_rounds (t : nat -> Time) k j :
  calls is_try (rounds t j k) = k.
Proof.
  revert j. induction k as [|k IH]; intros j; [reflexivity|].
  unfold calls in *. cbn. rewrite IH. reflexivity.
Qed.

(** Whatever the probe, the clock and [fail] do, and however long the loop
    has run, its trace is made of rounds paced by [start] and [timeout]. *)
Lemma WaitFor_loop_paced start :
  forall fuel w,
  exists evs,
    trace (final (WaitFor_loop clock_read fuel try fail timeout start w))
    = trace w ++ evs
    /\ paced_by start timeout evs = true
    /\ (fuel <> 0%nat -> exists rest, evs = EvTry :: rest).
Proof.
  induction fuel as [|fuel IH]; intros w.
  - exists []. cbn. rewrite app_nil_r. repeat split; congruence.
  - rewrite WaitFor_loop_unfold.
    destruct (try (proc w)) as [[|] p|c p|m p|p];
      try solve [exists [EvTry]; cbn; repeat split; eauto].
    destruct (on_proc clock_read p) as [tnow p'].
    cbv zeta. destruct (Sub tnow start >? timeout) eqn:Hgt.
    + exists [EvTry; EvNow tnow; EvFail]. cbn [paced_by]. rewrite Hgt.
      repeat split; eauto.
      destruct (fail p'); cbn; rewrite <- !app_assoc; reflexivity.
    + destruct (IH {| proc := p'; trace := (trace w ++ [EvTry]) ++ [EvNow tnow] |})
        as (evs & Htr & Hp & _).
      exists (EvTry :: EvNow tnow :: evs). cbn [paced_by]. rewrite Hgt.
      repeat split; eauto.
      rewrite Htr. cbn [trace]. rewrite <- !app_assoc. reflexivity.
Qed.

(** C4. If the probe returns true the first time it is called, [WaitFor]
    returns at once: the process is left as that probe call left it, and
    the call has read the clock once and called the probe once, never
    [fail]. *)
Theorem WaitFor_first_probe_true :
  forall (fuel : nat) (w : World Sys) (start : Time) (p1 p2 : Proc Sys),
    on_proc clock_read (proc w) = (start, p1) ->
    try p1 = Returned true p2 ->
    let evs := [EvNow start; EvTry] in
    WaitFor clock_read (S fuel) try fail timeout w
    = Returned tt {| proc := p2; trace := trace w ++ evs |}
    /\ calls is_fail evs = 0%nat
    /\ calls is_try evs = 1%nat
    /\ calls is_now evs = 1%nat.
Proof.
  intros fuel w start p1 p2 Hnow Htry evs. repeat split.
  rewrite WaitFor_unfold, Hnow, WaitFor_loop_unfold. cbn [proc trace].
  rewrite Htry. subst evs. rewrite <- app_assoc. reflexivity.
Qed.

(** C5. If the probe returns false the first [N] times it is called, each
    time with the clock still within the timeout, and true the next time,
    then [WaitFor] returns, having called the probe [N + 1] times and
    [fail] never.  [p i] is the state in which the probe is called for the
    [i]-th time (from 0), [q i] the state it leaves, [t i] the clock
    reading that follows. *)
Theorem WaitFor_probe_true_after_N :
  forall (N : nat) (p q : nat -> Proc Sys) (t : nat -> Time)
         (start : Time) (w : World Sys) (p' : Proc Sys),
    on_proc clock_read (proc w) = (start, p 0%nat) ->
    (forall i, (i < N)%nat -> try (p i) = Returned false (q i)) ->
    (forall i, (i < N)%nat -> on_proc clock_read (q i) = (t i, p (S i))) ->
    (forall i, (i < N)%nat -> Sub (t i) start <= timeout) ->
    try (p N) = Returned true p' ->
    let evs := EvNow start :: rounds t 0 N ++ [EvTry] in
    (forall fuel, (N < fuel)%nat ->
       WaitFor clock_read fuel try fail timeout w
       = Returned tt {| proc := p'; trace := trace w ++ evs |})
    /\ calls is_fail evs = 0%nat
    /\ calls is_try evs = S N.
Proof.
  intros N p q t start w p' Hstart Htry Hnow Hin Hlast evs. split.
  - intros fuel Hfuel.
    replace fuel with (N + S (fuel - S N))%nat by lia.
    rewrite WaitFor_unfold, Hstart.
    rewrite (WaitFor_loop_rounds p q t start N 0)
      by (intros i Hi; first [apply Htry | apply Hnow | apply Hin]; lia).
    rewrite WaitFor_loop_unfold. cbn [proc trace Nat.add].
    rewrite Hlast. subst evs. cbn [app]. rewrite <- !app_assoc. reflexivity.
  - subst evs.
    change (EvNow start :: rounds t 0 N ++ [EvTry])
      with ([EvNow start] ++ rounds t 0 N ++ [EvTry]).
    rewrite !calls_app, calls_try_rounds, (calls_rounds is_fail) by reflexivity.
    cbn. split; [reflexivity | lia].
Qed.

(** C2, for the timeouts it holds for.  With a timeout below the largest
    [Duration], a probe that keeps returning false makes [WaitFor] call
    [fail] exactly once, right after the first clock reading that lies more
    than [timeout] after the start, and not before; [WaitFor] then ends as
    that call of [fail] ends, so it returns (with no value) when [fail]
    returns.  [p i], [q i] and [t i] are as in C5, and round [n] is the
    first whose clock reading is past the timeout.  (With the largest
    [Duration] as timeout no reading is ever past it, see
    [WaitFor_loop_past_maxDuration].) *)
Theorem WaitFor_probe_always_false :
  forall (n : nat) (p q : nat -> Proc Sys) (t : nat -> Time)
         (start : Time) (w : World Sys),
    timeout < maxDuration ->
    on_proc clock_read (proc w) = (start, p 0%nat) ->
    (forall i, (i <= n)%nat -> try (p i) = Returned false (q i)) ->
    (forall i, (i <= n)%nat -> on_proc clock_read (q i) = (t i, p (S i))) ->
    (forall i, (i < n)%nat -> Sub (t i) start <= timeout) ->
    Sub (t n) start > timeout ->
    let evs := EvNow start :: rounds t 0 (S n) ++ [EvFail] in
    (forall fuel, (n < fuel)%nat ->
       WaitFor clock_read fuel try fail timeout w
       = with_trace (trace w ++ evs) (fail (p (S n))))
    /\ (forall fuel p', (n < fuel)%nat ->
          fail (p (S n)) = Returned tt p' ->
          WaitFor clock_read fuel try fail timeout w
          = Returned tt {| proc := p'; trace := trace w ++ evs |})
    /\ calls is_fail evs = 1%nat
    /\ (forall fuel, (fuel <= n)%nat ->
          WaitFor clock_read fuel try fail timeout w
          = OutOfFuel {| proc := p fuel;
                         trace := trace w ++ EvNow start :: rounds t 0 fuel |}
          /\ calls is_fail (EvNow start :: rounds t 0 fuel) = 0%nat).
Proof.
  intros n p q t start w _ Hstart Htry Hnow Hin Hout evs.
  assert (Hrun : forall fuel, (n < fuel)%nat ->
            WaitFor clock_read fuel try fail timeout w
            = with_trace (trace w ++ evs) (fail (p (S n)))).
  { intros fuel Hfuel.
    replace fuel with (n + S (fuel - S n))%nat by lia.
    rewrite WaitFor_unfold, Hstart.
    rewrite (WaitFor_loop_rounds p q t start n 0)
      by (intros i Hi; first [apply Htry | apply Hnow | apply Hin]; lia).
    rewrite WaitFor_loop_unfold. cbn [proc trace Nat.add].
    rewrite (Htry n), (Hnow n) by lia. cbv zeta.
    destruct (Sub (t n) start >? timeout) eqn:Hgt; [|lia].
    cbn [proc trace]. f_equal. subst evs.
    assert (Hsplit : forall k j,
               rounds t j (S k) = rounds t j k ++ [EvTry; EvNow (t (j + k)%nat)]).
    { induction k as [|k IH]; intros j.
      - cbn. rewrite Nat.add_0_r. reflexivity.
      - change (rounds t j (S (S k)))
          with (EvTry :: EvNow (t j) :: rounds t (S j) (S k)).
        rewrite IH. cbn [rounds app].
        replace (S j + k)%nat with (j + S k)%nat by lia. reflexivity. }
    rewrite Hsplit. cbn [Nat.add app]. rewrite <- !app_assoc. reflexivity. }
  split; [exact Hrun|]. split; [|split].
  - intros fuel p' Hfuel Hfail. rewrite Hrun, Hfail by exact Hfuel.
    reflexivity.
  - subst evs.
    change (EvNow start :: rounds t 0 (S n) ++ [EvFail])
      with ([EvNow start] ++ rounds t 0 (S n) ++ [EvFail]).
    rewrite !calls_app, (calls_rounds is_fail) by reflexivity. reflexivity.
  - intros fuel Hfuel. split.
    + replace fuel with (fuel + 0)%nat at 1 by lia.
      rewrite WaitFor_unfold, Hstart.
      rewrite (WaitFor_loop_rounds p q t start fuel 0)
        by (intros i Hi; first [apply Htry | apply Hnow | apply Hin]; lia).
      cbn. rewrite <- app_assoc. reflexivity.
    + change (EvNow start :: rounds t 0 fuel)
        with ([EvNow start] ++ rounds t 0 fuel).
      rewrite calls_app, (calls_rounds is_fail) by reflexivity. reflexivity.
Qed.

(** C7. One call of [WaitFor] reads the start time once, as the first
    thing it does, and every round after that is decided against that same
    start time and the same timeout: the trace of the call, at any moment
    and whatever the probe, the clock and [fail] do, is the start reading
    followed by rounds paced by it. *)
Theorem WaitFor_fixed_deadline :
  forall (fuel : nat) (w : World Sys),
    let start := fst (on_proc clock_read (proc w)) in
    exists evs,
      trace (final (WaitFor clock_read fuel try fail timeout w))
      = trace w ++ EvNow start :: evs
      /\ paced_by start timeout evs = true.
Proof.
  intros fuel w start. rewrite WaitFor_unfold. subst start.
  destruct (on_proc clock_read (proc w)) as [start p]. cbn [fst].
  destruct (WaitFor_loop_paced start fuel
              {| proc := p; trace := trace w ++ [EvNow start] |})
    as (evs & Htr & Hp & _).
  exists evs. split; [|exact Hp].
  rewrite Htr. cbn [trace]. rewrite <- app_assoc. reflexivity.
Qed.

End WaitForProperties.

(** C8. Whatever the timeout, zero and negative ones included, [WaitFor]
    calls the probe before it looks at the clock again: the first thing in
    its trace after the start reading is a probe call.  So a probe that
    returns true the first time makes [WaitFor] return with [fail] not
    called, also when the timeout has run out from the start. *)
Theorem WaitFor_probes_before_timeout_check :
  forall (Sys : Type) (clock_read : Sys -> Time * Sys)
         (try : Callback Sys bool) (fail : Callback Sys unit)
         (timeout : Duration) (fuel : nat)
         (w : World Sys) (start : Time) (p1 : Proc Sys),
    on_proc clock_read (proc w) = (start, p1) ->
    (exists rest,
        trace (final (WaitFor clock_read (S fuel) try fail timeout w))
        = trace w ++ EvNow start :: EvTry :: rest)
    /\ (forall p2, try p1 = Returned true p2 ->
          WaitFor clock_read (S fuel) try fail timeout w
          = Returned tt {| proc := p2; trace := trace w ++ [EvNow start; EvTry] |}
          /\ calls is_fail [EvNow start; EvTry] = 0%nat).
Proof.
  intros Sys clock_read try fail timeout fuel w start p1 Hstart. split.
  - rewrite WaitFor_unfold, Hstart.
    destruct (WaitFor_loop_paced Sys clock_read try fail timeout start (S fuel)
                {| proc := p1; trace := trace w ++ [EvNow start] |})
      as (evs & Htr & _ & Hhead).
    destruct Hhead as [rest ->]; [congruence|].
    exists rest. rewrite Htr. cbn [trace]. rewrite <- app_assoc. reflexivity.
  - intros p2 Htry. split; [|reflexivity].
    rewrite WaitFor_unfold, Hstart, WaitFor_loop_unfold. cbn [proc trace].
    rewrite Htry, <- app_assoc. reflexivity.
Qed.

Section ShouldCrashProperties.

Variable Sys : Type.
Variable spawn : Cmd -> Sys -> ChildResult * Sys.
Variable testName : string.
Variables try fail : Callback Sys unit.

Lemma ShouldCrash_parent_unfold w argv0 args :
  lookup_env "SHOULD_CRASH" (environ (proc w)) <> "1" ->
  os_Args (proc w) = argv0 :: args ->
  ShouldCrash spawn testName try fail w =
  let cmd := child_command testName (environ (proc w)) argv0 in
  let (r, p') := on_proc (spawn cmd) (proc w) in
  match as_ExitError (Run_error r) with
  | Some e =>
      if negb (Success e)
      then Returned tt {| proc := p'; trace := trace w ++ [EvRun cmd] |}
      else with_trace ((trace w ++ [EvRun cmd]) ++ [EvFail]) (fail p')
  | None => with_trace ((trace w ++ [EvRun cmd]) ++ [EvFail]) (fail p')
  end.
Proof.
  intros Hmarker Hargs.
  unfold ShouldCrash, os_Getenv, os_Args_index, os_Environ, Cmd_Run.
  cbn. unfold M_bind. cbn.
  apply String.eqb_neq in Hmarker. rewrite Hmarker. cbn.
  rewrite Hargs. cbn. unfold syscall, child_command, set_Env, exec_Command.
  cbn.
  destruct (on_proc _ (proc w)) as [r p']. cbn.
  destruct (as_ExitError (Run_error r)) as [e|]; cbn.
  - destruct (Success e); reflexivity.
  - reflexivity.
Qed.

(** C1. In the parent role, with the child's result [r] in hand: a child
    that exited with a status other than 0 makes [ShouldCrash] return with
    [fail] not called; a child that exited with status 0 makes it call
    [fail] exactly once, and end as that call ends.  The code under test
    is not called in the parent. *)
Theorem ShouldCrash_parent_exit_status :
  forall (w : World Sys) (argv0 : string) (args : list string)
         (status : Z) (p' : Proc Sys),
    lookup_env "SHOULD_CRASH" (environ (proc w)) <> "1" ->
    os_Args (proc w) = argv0 :: args ->
    let cmd := child_command testName (environ (proc w)) argv0 in
    on_proc (spawn cmd) (proc w) = (ChildExited status, p') ->
    (status <> 0 ->
       ShouldCrash spawn testName try fail w
       = Returned tt {| proc := p'; trace := trace w ++ [EvRun cmd] |}
       /\ calls is_fail [EvRun cmd] = 0%nat)
    /\ (status = 0 ->
          ShouldCrash spawn testName try fail w
          = with_trace (trace w ++ [EvRun cmd; EvFail]) (fail p')
          /\ calls is_fail [EvRun cmd; EvFail] = 1%nat
          /\ calls is_try [EvRun cmd; EvFail] = 0%nat).
Proof.
  intros w argv0 args status p' Hmarker Hargs cmd Hspawn.
  rewrite (ShouldCrash_parent_unfold w argv0 args Hmarker Hargs).
  cbv zeta. fold cmd. rewrite Hspawn. cbn [Run_error].
  split; intros Hstatus.
  - apply Z.eqb_neq in Hstatus. rewrite Hstatus. cbn [as_ExitError].
    unfold Success; cbn [ExitCode]. rewrite Hstatus. cbn.
    split; reflexivity.
  - subst status. cbn. rewrite <- app_assoc. repeat split.
Qed.

(** A child killed by a signal counts as a crash as well. *)
Lemma ShouldCrash_parent_signal :
  forall (w : World Sys) (argv0 : string) (args : list string)
         (signal : Z) (p' : Proc Sys),
    lookup_env "SHOULD_CRASH" (environ (proc w)) <> "1" ->
    os_Args (proc w) = argv0 :: args ->
    let cmd := child_command testName (environ (proc w)) argv0 in
    on_proc (spawn cmd) (proc w) = (ChildSignaled signal, p') ->
    ShouldCrash spawn testName try fail w
    = Returned tt {| proc := p'; trace := trace w ++ [EvRun cmd] |}.
Proof.
  intros w argv0 args signal p' Hmarker Hargs cmd Hspawn.
  rewrite (ShouldCrash_parent_unfold w argv0 args Hmarker Hargs).
  cbv zeta. fold cmd. rewrite Hspawn. reflexivity.
Qed.

(** C3, as the code has it.  In the parent role a command that could not
    be started is handled like a child that did not crash: [ShouldCrash]
    calls [fail] exactly once and ends as that call ends, so it returns to
    the test when [fail] returns. *)
Theorem ShouldCrash_launch_failure_calls_fail :
  forall (w : World Sys) (argv0 : string) (args : list string)
         (reason : string) (p' : Proc Sys),
    lookup_env "SHOULD_CRASH" (environ (proc w)) <> "1" ->
    os_Args (proc w) = argv0 :: args ->
    let cmd := child_command testName (environ (proc w)) argv0 in
    on_proc (spawn cmd) (proc w) = (ChildNotStarted reason, p') ->
    ShouldCrash spawn testName try fail w
    = with_trace (trace w ++ [EvRun cmd; EvFail]) (fail p')
    /\ calls is_fail [EvRun cmd; EvFail] = 1%nat
    /\ (forall p'', fail p' = Returned tt p'' ->
          ShouldCrash spawn testName try fail w
          = Returned tt {| proc := p''; trace := trace w ++ [EvRun cmd; EvFail] |}).
Proof.
  intros w argv0 args reason p' Hmarker Hargs cmd Hspawn.
  rewrite (ShouldCrash_parent_unfold w argv0 args Hmarker Hargs).
  cbv zeta. fold cmd. rewrite Hspawn. cbn. rewrite <- app_assoc.
  repeat split. intros p'' ->. reflexivity.
Qed.

(** C6. In the child role [ShouldCrash] calls the code under test at once
    and, when that returns, ends the process with status 0.  Whatever the
    code under test does, the call spawns nothing, does not call [fail],
    and never returns to its caller. *)
Theorem ShouldCrash_child_role :
  forall (w : World Sys),
    lookup_env "SHOULD_CRASH" (environ (proc w)) = "1" ->
    (forall p', try (proc w) = Returned tt p' ->
       ShouldCrash spawn testName try fail w
       = Exited 0 {| proc := p'; trace := trace w ++ [EvTry; EvExit 0] |})
    /\ (exists evs,
          trace (final (ShouldCrash spawn testName try fail w))
          = trace w ++ EvTry :: evs
          /\ calls is_run evs = 0%nat
          /\ calls is_fail evs = 0%nat
          /\ calls is_try evs = 0%nat)
    /\ (forall w', ShouldCrash spawn testName try fail w <> Returned tt w').
Proof.
  intros w Hmarker.
  assert (Hrun : ShouldCrash spawn testName try fail w =
                 match try (proc w) with
                 | Returned _ p =>
                     Exited 0 {| proc := p;
                                 trace := (trace w ++ [EvTry]) ++ [EvExit 0] |}
                 | Exited code p =>
                     Exited code {| proc := p; trace := trace w ++ [EvTry] |}
                 | Panicked msg p =>
                     Panicked msg {| proc := p; trace := trace w ++ [EvTry] |}
                 | OutOfFuel p =>
                     OutOfFuel {| proc := p; trace := trace w ++ [EvTry] |}
                 end).
  { unfold ShouldCrash, os_Getenv. cbn. unfold M_bind. cbn.
    rewrite Hmarker. cbn. unfold call, invoke. cbn [proc trace].
    destruct (try (proc w)); reflexivity. }
  rewrite Hrun. split; [|split].
  - intros p' ->. rewrite <- app_assoc. reflexivity.
  - destruct (try (proc w)); cbn [final trace].
    + exists [EvExit 0]. rewrite <- app_assoc. repeat split.
    + exists []. repeat split.
    + exists []. repeat split.
    + exists []. repeat split.
  - intros w'. destruct (try (proc w)); discriminate.
Qed.

End ShouldCrashProperties.

Section CaptureStdoutProperties.

Variable Sys : Type.
Variable pipe : Sys -> (File * File * error) * Sys.
Variable close : File -> Sys -> error * Sys.
Variable read_all : File -> Sys -> (string * error) * Sys.
Variable printFunction : Callback Sys error.

Lemma on_proc_Stdout {A} (op : Sys -> A * Sys) (p p' : Proc Sys) (a : A) :
  on_proc op p = (a, p') -> os_Stdout p' = os_Stdout p.
Proof.
  unfold on_proc. destruct (op (sys p)) as [a' s].
  intros H. inversion H. reflexivity.
Qed.

(** The paths through [CaptureStdout], one per way it can end. *)
Lemma CaptureStdout_unfold w :
  CaptureStdout pipe close read_all printFunction w =
  let '(r, wr, err, p1) := on_proc pipe (proc w) in
  let original := os_Stdout p1 in
  let tr := trace w ++ [EvPrint] in
  match err with
  | Some _ => Returned ("", err) {| proc := p1; trace := trace w |}
  | None =>
      match printFunction (with_Stdout p1 wr) with
      | Returned (Some e) p2 =>
          Returned ("", Some e)
                   {| proc := with_Stdout p2 original; trace := tr |}
      | Returned None p2 =>
          let (cerr, p3) := on_proc (close wr) p2 in
          match cerr with
          | Some _ =>
              Returned ("", cerr)
                       {| proc := with_Stdout p3 original; trace := tr |}
          | None =>
              let '(buf, rerr, p4) := on_proc (read_all r) p3 in
              match rerr with
              | Some _ =>
                  Returned ("", rerr)
                           {| proc := with_Stdout p4 original; trace := tr |}
              | None =>
                  Returned (buf, nil)
                           {| proc := with_Stdout p4 original; trace := tr |}
              end
          end
      | Exited code p2 => Exited code {| proc := p2; trace := tr |}
      | Panicked msg p2 =>
          Panicked msg {| proc := with_Stdout p2 original; trace := tr |}
      | OutOfFuel p2 => OutOfFuel {| proc := p2; trace := tr |}
      end
  end.
Proof.
  unfold CaptureStdout, os_Pipe, File_Close, io_Copy, syscall, defer,
    get_Stdout, set_Stdout, invoke, call, emit, panic.
  cbn. unfold M_bind, M_ret. cbn.
  destruct (on_proc pipe (proc w)) as [[[r wr] [e|]] p1]; cbn;
    [reflexivity|].
  destruct (printFunction (with_Stdout p1 wr)) as [[e|] p2|c p2|m p2|p2];
    cbn; try reflexivity.
  destruct (on_proc (close wr) p2) as [[e|] p3]; cbn; [reflexivity|].
  destruct (on_proc (read_all r) p3) as [[buf [e|]] p4]; reflexivity.
Qed.

(** C9. When [printFunction] returns an error, [CaptureStdout] returns
    the empty string and that error.  [printFunction] is called once the
    pipe is there, with [os.Stdout] bound to the writing end.  On every
    path that returns an error the string is empty. *)
Theorem CaptureStdout_print_error :
  forall (w : World Sys) (r wr : File) (p1 p2 : Proc Sys) (e : Err),
    on_proc pipe (proc w) = (r, wr, nil, p1) ->
    printFunction (with_Stdout p1 wr) = Returned (Some e) p2 ->
    CaptureStdout pipe close read_all printFunction w
    = Returned ("", Some e)
               {| proc := with_Stdout p2 (os_Stdout (proc w));
                  trace := trace w ++ [EvPrint] |}
    /\ (forall w0 out e0 w',
          CaptureStdout pipe close read_all printFunction w0
          = Returned (out, Some e0) w' -> out = "").
Proof.
  intros w r wr p1 p2 e Hpipe Hprint. split.
  - rewrite CaptureStdout_unfold, Hpipe. cbv zeta. rewrite Hprint.
    rewrite (on_proc_Stdout _ _ _ _ Hpipe). reflexivity.
  - clear. intros w0 out e0 w'. rewrite CaptureStdout_unfold.
    destruct (on_proc pipe (proc w0)) as [[[r wr] [e|]] p1]; cbv zeta;
      [intros H; inversion H; reflexivity|].
    destruct (printFunction (with_Stdout p1 wr)) as [[e|] p2|c p2|m p2|p2];
      try discriminate; [intros H; inversion H; reflexivity|].
    destruct (on_proc (close wr) p2) as [[e|] p3];
      [intros H; inversion H; reflexivity|].
    destruct (on_proc (read_all r) p3) as [[buf [e|]] p4];
      intros H; inversion H; reflexivity.
Qed.

(** C10. Whenever [CaptureStdout] returns, with the output or with an
    error from the pipe, from [printFunction], from closing or from
    copying, [os.Stdout] is bound to what it was bound to at entry; the
    same holds when [printFunction] panics.  And [CaptureStdout] does
    return whenever [printFunction] does. *)
Theorem CaptureStdout_restores_Stdout :
  forall (w : World Sys),
    (forall out w',
        CaptureStdout pipe close read_all printFunction w = Returned out w' ->
        os_Stdout (proc w') = os_Stdout (proc w))
    /\ (forall msg w',
          CaptureStdout pipe close read_all printFunction w = Panicked msg w' ->
          os_Stdout (proc w') = os_Stdout (proc w))
    /\ ((forall p, exists e p', printFunction p = Returned e p') ->
        exists out w',
          CaptureStdout pipe close read_all printFunction w = Returned out w').
Proof.
  intros w. rewrite CaptureStdout_unfold.
  destruct (on_proc pipe (proc w)) as [[[r wr] err] p1] eqn:Hpipe.
  pose proof (on_proc_Stdout _ _ _ _ Hpipe) as Horig. cbv zeta.
  destruct err as [e|].
  - repeat split.
    + intros out w' H. inversion H. exact Horig.
    + discriminate.
    + intros _. eauto.
  - destruct (printFunction (with_Stdout p1 wr))
      as [[e|] p2|c p2|m p2|p2] eqn:Hprint.
    + repeat split; [|discriminate|eauto].
      intros out w' H. inversion H. exact Horig.
    + destruct (on_proc (close wr) p2) as [[e|] p3].
      * repeat split; [|discriminate|eauto].
        intros out w' H. inversion H. exact Horig.
      * destruct (on_proc (read_all r) p3) as [[buf [e|]] p4];
          (repeat split; [|discriminate|eauto]);
          intros out w' H; inversion H; exact Horig.
    + repeat split; try discriminate.
      intros Hret. destruct (Hret (with_Stdout p1 wr)) as (e & p' & He).
      congruence.
    + repeat split; try discriminate.
      * intros msg w' H. inversion H. exact Horig.
      * intros Hret. destruct (Hret (with_Stdout p1 wr)) as (e & p' & He).
        congruence.
    + repeat split; try discriminate.
      intros Hret. destruct (Hret (with_Stdout p1 wr)) as (e & p' & He).
      congruence.
Qed.

End CaptureStdoutProperties.

(** ** Runs on the machine *)

(** A probe that is never ready, a timeout of 2ns, a clock at 10: the third
    reading after the start is the first past the timeout, [fail] is called
    then, and [WaitFor] returns as [fail] does. *)
Lemma WaitFor_probe_always_false_run :
  WaitFor machine_clock_read 5 never_ready returns 2 (process_on machine0 [])
  = Returned tt
      {| proc := proc (process_on (at_time machine0 14) []);
         trace := [EvNow 10; EvTry; EvNow 11; EvTry; EvNow 12;
                   EvTry; EvNow 13; EvFail] |}.
Proof.
  refine (proj1 (proj2
    (WaitFor_probe_always_false Machine machine_clock_read never_ready returns
       2 2%nat at_tick at_tick (fun i => 11 + Z.of_nat i) 10
       (process_on machine0 []) _ _ _ _ _ _)) 5%nat _ _ _).
  - reflexivity.
  - reflexivity.
  - intros i _. reflexivity.
  - intros [|[|[|i]]] Hi; [reflexivity | reflexivity | reflexivity | lia].
  - intros [|[|i]] Hi; [unfold Sub; simpl; lia | unfold Sub; simpl; lia | lia].
  - reflexivity.
  - lia.
  - reflexivity.
Defined.

(** A probe that is ready at once: [WaitFor] returns after one probe call,
    and [log.Fatal], passed as [fail], is not called. *)
Lemma WaitFor_first_probe_true_run :
  WaitFor machine_clock_read 1 ready_at_once log_Fatal 5000000000
          (process_on machine0 [])
  = Returned tt {| proc := at_tick 0; trace := [EvNow 10; EvTry] |}.
Proof.
  refine (proj1
    (WaitFor_first_probe_true Machine machine_clock_read ready_at_once
       log_Fatal 5000000000 0%nat (process_on machine0 []) 10
       (at_tick 0) (at_tick 0) _ _)).
  - reflexivity.
  - reflexivity.
Defined.

(** A probe that is ready from time 13 on, a timeout of 5ns: two rounds find
    it not ready, the third call finds it ready, [fail] is not called. *)
Lemma WaitFor_probe_true_after_N_run :
  WaitFor machine_clock_read 9 (ready_from 13) log_Fatal 5
          (process_on machine0 [])
  = Returned tt
      {| proc := at_tick 2;
         trace := [EvNow 10; EvTry; EvNow 11; EvTry; EvNow 12; EvTry] |}.
Proof.
  refine (proj1
    (WaitFor_probe_true_after_N Machine machine_clock_read (ready_from 13)
       log_Fatal 5 2%nat at_tick at_tick (fun i => 11 + Z.of_nat i) 10
       (process_on machine0 []) (at_tick 2) _ _ _ _ _) 9%nat _).
  - reflexivity.
  - intros [|[|i]] Hi; [reflexivity | reflexivity | lia].
  - intros [|[|i]] Hi; [reflexivity | reflexivity | lia].
  - intros [|[|i]] Hi; [unfold Sub; simpl; lia | unfold Sub; simpl; lia | lia].
  - reflexivity.
  - lia.
Defined.

(** Timeouts of zero and of minus three nanoseconds, a probe that is ready
    at once: the probe is still called, and [fail] is not. *)
Lemma WaitFor_probes_before_timeout_check_run :
  WaitFor machine_clock_read 1 ready_at_once log_Fatal 0
          (process_on machine0 [])
  = Returned tt {| proc := at_tick 0; trace := [EvNow 10; EvTry] |}
  /\ WaitFor machine_clock_read 1 ready_at_once log_Fatal (-3)
             (process_on machine0 [])
     = Returned tt {| proc := at_tick 0; trace := [EvNow 10; EvTry] |}.
Proof.
  split.
  - refine (proj1 (proj2
      (WaitFor_probes_before_timeout_check Machine machine_clock_read
         ready_at_once log_Fatal 0 0%nat (process_on machine0 []) 10
         (at_tick 0) _) (at_tick 0) _)).
    + reflexivity.
    + reflexivity.
  - refine (proj1 (proj2
      (WaitFor_probes_before_timeout_check Machine machine_clock_read
         ready_at_once log_Fatal (-3) 0%nat (process_on machine0 []) 10
         (at_tick 0) _) (at_tick 0) _)).
    + reflexivity.
    + reflexivity.
Defined.

(** The parent with a child that ends with status 1, as after [log.Fatal],
    and with a child that ends with status 0. *)
Lemma ShouldCrash_parent_exit_status_run :
  ShouldCrash machine_spawn "ExampleShouldCrash" returns returns
              (process_on (with_child machine0 (ChildExited 1)) ["HOME=/root"])
  = Returned tt
      {| proc := proc (process_on (with_child machine0 (ChildExited 1))
                                  ["HOME=/root"]);
         trace := [EvRun (child_of_test ["HOME=/root"])] |}
  /\ ShouldCrash machine_spawn "ExampleShouldCrash" returns returns
                 (process_on machine0 ["HOME=/root"])
     = Returned tt
         {| proc := proc (process_on machine0 ["HOME=/root"]);
            trace := [EvRun (child_of_test ["HOME=/root"]); EvFail] |}.
Proof.
  split.
  - refine (proj1 (proj1
      (ShouldCrash_parent_exit_status Machine machine_spawn
         "ExampleShouldCrash" returns returns
         (process_on (with_child machine0 (ChildExited 1)) ["HOME=/root"])
         "/tmp/testutil.test" ["-test.v"] 1
         (proc (process_on (with_child machine0 (ChildExited 1)) ["HOME=/root"]))
         _ _ _) _)).
    + simpl. discriminate.
    + reflexivity.
    + reflexivity.
    + lia.
  - refine (proj1 (proj2
      (ShouldCrash_parent_exit_status Machine machine_spawn
         "ExampleShouldCrash" returns returns
         (process_on machine0 ["HOME=/root"])
         "/tmp/testutil.test" ["-test.v"] 0
         (proc (process_on machine0 ["HOME=/root"]))
         _ _ _) _)).
    + simpl. discriminate.
    + reflexivity.
    + reflexivity.
    + reflexivity.
Defined.

(** The parent with a binary that cannot be started. *)
Lemma ShouldCrash_launch_failure_calls_fail_run :
  ShouldCrash machine_spawn "ExampleShouldCrash" returns returns
              (process_on (with_child machine0
                             (ChildNotStarted "no such file or directory"))
                          ["HOME=/root"])
  = Returned tt
      {| proc := proc (process_on
                         (with_child machine0
                            (ChildNotStarted "no such file or directory"))
                         ["HOME=/root"]);
         trace := [EvRun (child_of_test ["HOME=/root"]); EvFail] |}.
Proof.
  refine (proj2 (proj2
    (ShouldCrash_launch_failure_calls_fail Machine machine_spawn
       "ExampleShouldCrash" returns returns
       (process_on (with_child machine0
                      (ChildNotStarted "no such file or directory"))
                   ["HOME=/root"])
       "/tmp/testutil.test" ["-test.v"] "no such file or directory"
       (proc (process_on (with_child machine0
                            (ChildNotStarted "no such file or directory"))
                         ["HOME=/root"]))
       _ _ _)) _ _).
  - simpl. discriminate.
  - reflexivity.
  - reflexivity.
  - reflexivity.
Defined.

(** C3, as stated, fails: the binary cannot be started, and [ShouldCrash]
    calls [fail] and returns to the test; nothing ends the run. *)
Lemma ShouldCrash_launch_failure_is_not_fatal :
  let w := process_on (with_child machine0
                         (ChildNotStarted "no such file or directory"))
                      ["HOME=/root"] in
  let cmd := child_of_test ["HOME=/root"] in
  on_proc (machine_spawn cmd) (proc w)
  = (ChildNotStarted "no such file or directory", proc w)
  /\ ShouldCrash machine_spawn "ExampleShouldCrash" returns returns w
     = Returned tt {| proc := proc w; trace := [EvRun cmd; EvFail] |}
  /\ calls is_fail [EvRun cmd; EvFail] = 1%nat.
Proof. repeat split. Qed.

(** The child: the code under test returns, and the process ends with
    status 0 without a command having been run. *)
Lemma ShouldCrash_child_role_run :
  ShouldCrash machine_spawn "ExampleShouldCrash" returns returns
              (process_on machine0 ["HOME=/root"; "SHOULD_CRASH=1"])
  = Exited 0
      {| proc := proc (process_on machine0 ["HOME=/root"; "SHOULD_CRASH=1"]);
         trace := [EvTry; EvExit 0] |}.
Proof.
  refine (proj1
    (ShouldCrash_child_role Machine machine_spawn "ExampleShouldCrash"
       returns returns
       (process_on machine0 ["HOME=/root"; "SHOULD_CRASH=1"]) _) _ _).
  - reflexivity.
  - reflexivity.
Defined.

(** A print function that fails: no output, and its error. *)
Lemma CaptureStdout_print_error_run :
  CaptureStdout machine_pipe machine_close machine_read_all print_fails
                (process_on machine0 [])
  = Returned ("", Some (OtherError "short write"))
      {| proc := proc (process_on machine0 []); trace := [EvPrint] |}.
Proof.
  refine (proj1
    (CaptureStdout_print_error Machine machine_pipe machine_close
       machine_read_all print_fails (process_on machine0 []) 3 4
       (proc (process_on machine0 []))
       (with_Stdout (proc (process_on machine0 [])) 4)
       (OtherError "short write") _ _)).
  - reflexivity.
  - reflexivity.
Defined.

(** The example of the test file: the line printed inside is what
    [CaptureStdout] returns, nothing reaches the terminal, and [os.Stdout]
    is the terminal again afterwards. *)
Example CaptureStdout_example :
  let o := CaptureStdout machine_pipe machine_close machine_read_all
                         (fmt_Print "This goes to stdout")
                         (process_on machine0 []) in
  (exists w', o = Returned ("This goes to stdout", nil) w')
  /\ os_Stdout (proc (final o)) = 1
  /\ terminal (sys (proc (final o))) = "".
Proof. cbn. repeat split. eexists. reflexivity. Qed.

(** The error paths of [CaptureStdout] on the machine: no pipe, a pipe that
    cannot be closed, a pipe that cannot be read.  Each returns the empty
    string and the error, with [os.Stdout] the terminal again. *)
Example CaptureStdout_error_paths :
  let e := Some (OtherError "input/output error") in
  let run m := CaptureStdout machine_pipe machine_close machine_read_all
                             (fmt_Print "lost") (process_on m []) in
  (exists w', run (failing e nil nil) = Returned ("", e) w'
              /\ os_Stdout (proc w') = 1 /\ trace w' = [])
  /\ (exists w', run (failing nil e nil) = Returned ("", e) w'
                 /\ os_Stdout (proc w') = 1 /\ trace w' = [EvPrint])
  /\ (exists w', run (failing nil nil e) = Returned ("", e) w'
                 /\ os_Stdout (proc w') = 1 /\ trace w' = [EvPrint]).
Proof. cbn. repeat split; eexists; repeat split. Qed.

(** ** Further properties of WaitFor *)

Section WaitForSafety.

Variable Sys : Type.
Variable clock_read : Sys -> Time * Sys.
Variables (try : Callback Sys bool) (fail : Callback Sys unit).
Variable timeout : Duration.

Lemma paced_by_fail start :
  forall (n : nat) (evs : list Event),
    (List.length evs <= n)%nat ->
    paced_by start timeout evs = true ->
    calls is_fail evs = 0%nat
    \/ exists evs' t,
        evs = evs' ++ [EvNow t; EvFail]
        /\ Sub t start > timeout
        /\ calls is_fail evs' = 0%nat.
Proof.
  induction n as [|n IH]; intros evs Hlen Hp.
  - destruct evs; [left; reflexivity | cbn in Hlen; lia].
  - destruct evs as [|e1 [|e2 rest]]; [left; reflexivity | |].
    + destruct e1; try discriminate. left. reflexivity.
    + destruct e1; try discriminate. destruct e2; try discriminate.
      cbn [paced_by] in Hp.
      destruct (Sub t start >? timeout) eqn:Hgt.
      * destruct rest as [|e3 rest]; [discriminate|].
        destruct e3; try discriminate.
        destruct rest; [|discriminate].
        right. exists [EvTry], t. split; [reflexivity|].
        split; [|reflexivity]. apply Z.gtb_lt in Hgt. lia.
      * cbn [List.length] in Hlen.
        destruct (IH rest ltac:(lia) Hp) as [H0 | (evs' & t' & -> & Hgt' & H0)].
        -- left. exact H0.
        -- right. exists (EvTry :: EvNow t :: evs'), t'. repeat split; assumption.
Qed.

(** X1. However the probe, the clock and [fail] behave, [WaitFor] calls [fail]
    at most once; when it does, the call comes right after a clock reading
    more than [timeout] past the start, and it is the last thing [WaitFor]
    does. *)
Theorem WaitFor_fail_at_most_once :
  forall (fuel : nat) (w : World Sys),
    let start := fst (on_proc clock_read (proc w)) in
    exists evs,
      trace (final (WaitFor clock_read fuel try fail timeout w))
      = trace w ++ EvNow start :: evs
      /\ (calls is_fail evs = 0%nat
          \/ exists evs' t,
              evs = evs' ++ [EvNow t; EvFail]
              /\ Sub t start > timeout
              /\ calls is_fail evs' = 0%nat).
Proof.
  intros fuel w start. rewrite WaitFor_unfold. subst start.
  destruct (on_proc clock_read (proc w)) as [start p]. cbn [fst].
  destruct (WaitFor_loop_paced Sys clock_read try fail timeout start fuel
              {| proc := p; trace := trace w ++ [EvNow start] |})
    as (evs & Htr & Hp & _).
  exists evs. split.
  - rewrite Htr. cbn [trace]. rewrite <- app_assoc. reflexivity.
  - exact (paced_by_fail start (List.length evs) evs (le_n _) Hp).
Qed.

Lemma WaitFor_loop_returns_ready (Inv : Proc Sys -> Prop) start :
  (forall p u p', fail p <> Returned u p') ->
  (forall p b p', Inv p -> try p = Returned b p' -> Inv p') ->
  (forall p t p', Inv p -> on_proc clock_read p = (t, p') -> Inv p') ->
  forall (fuel : nat) (w w' : World Sys),
    Inv (proc w) ->
    WaitFor_loop clock_read fuel try fail timeout start w = Returned tt w' ->
    (exists p, Inv p /\ try p = Returned true (proc w'))
    /\ exists evs, trace w' = trace w ++ evs /\ calls is_fail evs = 0%nat.
Proof.
  intros Hfatal Itry Inow. induction fuel as [|fuel IH]; intros w w' Hw Hrun;
    [discriminate|].
  rewrite WaitFor_loop_unfold in Hrun.
  destruct (try (proc w)) as [[|] p|c p|m p|p] eqn:Htry; try discriminate.
  - inversion Hrun; subst w'. cbn [proc trace]. split.
    + exists (proc w). split; assumption.
    + exists [EvTry]. split; reflexivity.
  - destruct (on_proc clock_read p) as [tnow p'] eqn:Hnow. cbv zeta in Hrun.
    destruct (Sub tnow start >? timeout).
    + destruct (fail p') as [u p''|c p''|m p''|p''] eqn:Hfail;
        try discriminate.
      exfalso. exact (Hfatal _ _ _ Hfail).
    + assert (Hp' : Inv p') by (eapply Inow; [eapply Itry|]; eassumption).
      destruct (IH {| proc := p'; trace := (trace w ++ [EvTry]) ++ [EvNow tnow] |}
                  w' Hp' Hrun) as (Hready & evs & Htr & H0). split;
        [exact Hready|].
      exists (EvTry :: EvNow tnow :: evs). split; [|exact H0].
      rewrite Htr. cbn [trace]. rewrite <- !app_assoc. reflexivity.
Qed.

(** X2. With a [fail] that never returns, such as [log.Fatal], [WaitFor]
    returns only from a probe call that said yes: the process is in the
    state that call left, and [fail] has not been called. *)
Theorem WaitFor_returns_only_when_ready :
  (forall p u p', fail p <> Returned u p') ->
  forall (fuel : nat) (w w' : World Sys),
    WaitFor clock_read fuel try fail timeout w = Returned tt w' ->
    (exists p, try p = Returned true (proc w'))
    /\ exists evs, trace w' = trace w ++ evs /\ calls is_fail evs = 0%nat.
Proof.
  intros Hfatal fuel w w' Hrun. rewrite WaitFor_unfold in Hrun.
  destruct (on_proc clock_read (proc w)) as [start p].
  destruct (WaitFor_loop_returns_ready (fun _ => True) start Hfatal
              (fun _ _ _ _ _ => I) (fun _ _ _ _ _ => I) _ _ _ I Hrun)
    as ((p0 & _ & Hready) & evs & Htr & H0).
  split; [exists p0; exact Hready|].
  exists (EvNow start :: evs). split; [|exact H0].
  rewrite Htr. cbn [trace]. rewrite <- app_assoc. reflexivity.
Qed.

(** X3. A probe call that ends the process, or panics, ends [WaitFor] the same
    way, with the same status or message, and [fail] is not called.  The
    call in question is the one after [N] rounds within the timeout; [p],
    [q] and [t] are as in C5. *)
Theorem WaitFor_probe_does_not_return :
  forall (N : nat) (p q : nat -> Proc Sys) (t : nat -> Time)
         (start : Time) (w : World Sys),
    on_proc clock_read (proc w) = (start, p 0%nat) ->
    (forall i, (i < N)%nat -> try (p i) = Returned false (q i)) ->
    (forall i, (i < N)%nat -> on_proc clock_read (q i) = (t i, p (S i))) ->
    (forall i, (i < N)%nat -> Sub (t i) start <= timeout) ->
    let evs := EvNow start :: rounds t 0 N ++ [EvTry] in
    calls is_fail evs = 0%nat
    /\ (forall code p', try (p N) = Exited code p' ->
        forall fuel, (N < fuel)%nat ->
          WaitFor clock_read fuel try fail timeout w
          = Exited code {| proc := p'; trace := trace w ++ evs |})
    /\ (forall msg p', try (p N) = Panicked msg p' ->
        forall fuel, (N < fuel)%nat ->
          WaitFor clock_read fuel try fail timeout w
          = Panicked msg {| proc := p'; trace := trace w ++ evs |}).
Proof.
  intros N p q t start w Hstart Htry Hnow Hin evs.
  assert (Hrun : forall fuel, (N < fuel)%nat ->
            WaitFor clock_read fuel try fail timeout w
            = WaitFor_loop clock_read (S (fuel - S N)) try fail timeout start
                {| proc := p N;
                   trace := (trace w ++ [EvNow start]) ++ rounds t 0 N |}).
  { intros fuel Hfuel.
    replace fuel with (N + S (fuel - S N))%nat at 1 by lia.
    rewrite WaitFor_unfold, Hstart.
    rewrite (WaitFor_loop_rounds Sys clock_read try fail timeout p q t start N 0)
      by (intros i Hi; first [apply Htry | apply Hnow | apply Hin]; lia).
    reflexivity. }
  split; [|split].
  - subst evs.
    change (EvNow start :: rounds t 0 N ++ [EvTry])
      with ([EvNow start] ++ rounds t 0 N ++ [EvTry]).
    rewrite !calls_app, (calls_rounds is_fail) by reflexivity. reflexivity.
  - intros code p' Hexit fuel Hfuel.
    rewrite (Hrun fuel Hfuel), WaitFor_loop_unfold. cbn [proc trace].
    rewrite Hexit. subst evs. cbn [app]. rewrite <- !app_assoc. reflexivity.
  - intros msg p' Hpanic fuel Hfuel.
    rewrite (Hrun fuel Hfuel), WaitFor_loop_unfold. cbn [proc trace].
    rewrite Hpanic. subst evs. cbn [app]. rewrite <- !app_assoc. reflexivity.
Qed.

(** X4. A timeout below zero leaves room for one probe call only, on a clock
    that does not run backwards: when that call says no, [fail] is called
    at once. *)
Theorem WaitFor_negative_timeout :
  forall (fuel : nat) (w : World Sys) (start t : Time) (p1 q p2 : Proc Sys),
    timeout < 0 ->
    on_proc clock_read (proc w) = (start, p1) ->
    try p1 = Returned false q ->
    on_proc clock_read q = (t, p2) ->
    start <= t ->
    let evs := [EvNow start; EvTry; EvNow t; EvFail] in
    WaitFor clock_read (S fuel) try fail timeout w
    = with_trace (trace w ++ evs) (fail p2)
    /\ calls is_try evs = 1%nat.
Proof.
  intros fuel w start t p1 q p2 Hneg Hstart Htry Hnow Hmono evs.
  split; [|reflexivity].
  rewrite WaitFor_unfold, Hstart, WaitFor_loop_unfold. cbn [proc trace].
  rewrite Htry, Hnow. cbv zeta.
  pose proof (Sub_bounds t start) as Hb.
  assert (Hgt : (Sub t start >? timeout) = true).
  { apply Z.gtb_lt. unfold Sub, minDuration, maxDuration in *.
    destruct (Z.gtb_spec (t - start) (2 ^ 63 - 1));
      destruct (Z.ltb_spec (t - start) (- 2 ^ 63)); lia. }
  rewrite Hgt. cbn [proc trace]. subst evs. rewrite <- !app_assoc. reflexivity.
Qed.

End WaitForSafety.

(** ** The environment block *)

Lemma append_assoc (a b c : string) :
  ((a ++ b) ++ c)%string = (a ++ (b ++ c))%string.
Proof. induction a as [|x a IH]; cbn; [reflexivity | rewrite IH; reflexivity]. Qed.

Lemma length_append (a b : string) :
  String.length (a ++ b) = (String.length a + String.length b)%nat.
Proof. induction a as [|x a IH]; cbn; [reflexivity | rewrite IH; reflexivity]. Qed.

Lemma prefix_append (a b : string) : String.prefix a (a ++ b) = true.
Proof.
  induction a as [|x a IH]; cbn; [destruct b; reflexivity|].
  destruct (ascii_dec x x) as [_|Hx]; [exact IH | contradiction].
Qed.

Lemma substring_all (b : string) : String.substring 0 (String.length b) b = b.
Proof. induction b as [|x b IH]; cbn; [reflexivity | rewrite IH; reflexivity]. Qed.

Lemma substring_append (a b : string) (m : nat) :
  String.substring (String.length a) m (a ++ b) = String.substring 0 m b.
Proof. induction a as [|x a IH]; cbn; [reflexivity | exact IH]. Qed.

(** An entry written for [key] reads back as the value it was written
    with. *)
Lemma entry_value_same (key value : string) :
  entry_value key (key ++ "=" ++ value) = Some value.
Proof.
  unfold entry_value. rewrite <- append_assoc, prefix_append.
  rewrite substring_append, length_append.
  replace (String.length (key ++ "=") + String.length value
           - String.length (key ++ "="))%nat
    with (String.length value) by lia.
  rewrite substring_all. reflexivity.
Qed.

Lemma prefix_cons (a b : ascii) (s1 s2 : string) :
  String.prefix (String a s1) (String b s2)
  = if ascii_dec a b then String.prefix s1 s2 else false.
Proof. reflexivity. Qed.

Lemma has_char_cons (c a : ascii) (s : string) :
  has_char c (String a s) = (Ascii.eqb a c || has_char c s)%bool.
Proof. reflexivity. Qed.

(** An entry is for one name only, among names without [=]. *)
Lemma prefix_same_key :
  forall (k k' entry : string),
    has_char "="%char k = false ->
    has_char "="%char k' = false ->
    String.prefix (k ++ "=") entry = true ->
    String.prefix (k' ++ "=") entry = true ->
    k = k'.
Proof.
  induction k as [|c k IH]; intros k' entry Hk Hk' H1 H2;
    (destruct entry as [|b e]; [discriminate H1|]);
    cbn [append] in H1; rewrite prefix_cons in H1;
    (destruct (ascii_dec _ b) as [Hb|]; [subst b | discriminate H1]).
  - destruct k' as [|c' k']; [reflexivity|].
    cbn [append] in H2. rewrite prefix_cons in H2.
    destruct (ascii_dec c' _) as [->|]; [|discriminate H2].
    rewrite has_char_cons, Ascii.eqb_refl in Hk'. discriminate Hk'.
  - rewrite has_char_cons in Hk. apply orb_false_iff in Hk.
    destruct Hk as [Hc Hk].
    destruct k' as [|c' k']; cbn [append] in H2; rewrite prefix_cons in H2.
    + destruct (ascii_dec _ c) as [<-|]; [|discriminate H2].
      rewrite Ascii.eqb_refl in Hc. discriminate Hc.
    + destruct (ascii_dec c' c) as [->|]; [|discriminate H2].
      rewrite has_char_cons in Hk'. apply orb_false_iff in Hk'.
      destruct Hk' as [_ Hk']. f_equal. exact (IH k' e Hk Hk' H1 H2).
Qed.

Lemma entry_value_other (k k' entry : string) :
  has_char "="%char k = false ->
  has_char "="%char k' = false ->
  k <> k' ->
  entry_value k entry <> None ->
  entry_value k' entry = None.
Proof.
  intros Hk Hk' Hne Hsome. unfold entry_value in *.
  destruct (String.prefix (k ++ "=") entry) eqn:H1; [|congruence].
  destruct (String.prefix (k' ++ "=") entry) eqn:H2; [|reflexivity].
  exfalso. exact (Hne (prefix_same_key k k' entry Hk Hk' H1 H2)).
Qed.

Lemma lookup_env_absent (key : string) (env rest : list string) :
  absent key env = true ->
  lookup_env key (env ++ rest) = lookup_env key rest.
Proof.
  induction env as [|entry env IH]; intros Habs; [reflexivity|].
  cbn in Habs. apply andb_true_iff in Habs. destruct Habs as [He Habs].
  cbn [app lookup_env].
  destruct (entry_value key entry); [discriminate | exact (IH Habs)].
Qed.

Lemma lookup_env_other_entry (k k' value : string) (env : list string) :
  has_char "="%char k = false ->
  has_char "="%char k' = false ->
  k <> k' ->
  lookup_env k' (env ++ [(k ++ "=" ++ value)%string]) = lookup_env k' env.
Proof.
  intros Hk Hk' Hne. induction env as [|entry env IH]; cbn [app lookup_env].
  - rewrite (entry_value_other k k' _ Hk Hk' Hne); [reflexivity|].
    rewrite entry_value_same. discriminate.
  - destruct (entry_value k' entry); [reflexivity | exact IH].
Qed.

(** What [os.Setenv] writes, [os.Getenv] reads back. *)
Lemma lookup_setenv_same (key value : string) (env : list string) :
  lookup_env key (setenv key value env) = value.
Proof.
  induction env as [|entry env IH]; cbn [setenv].
  - cbn [lookup_env]. rewrite entry_value_same. reflexivity.
  - destruct (entry_value key entry) eqn:He; cbn [lookup_env].
    + rewrite entry_value_same. reflexivity.
    + rewrite He. exact IH.
Qed.

(** Setting one name leaves the others as they read before. *)
Lemma lookup_setenv_other (k k' value : string) (env : list string) :
  has_char "="%char k = false ->
  has_char "="%char k' = false ->
  k <> k' ->
  lookup_env k' (setenv k value env) = lookup_env k' env.
Proof.
  intros Hk Hk' Hne. induction env as [|entry env IH]; cbn [setenv].
  - cbn [lookup_env].
    rewrite (entry_value_other k k' _ Hk Hk' Hne); [reflexivity|].
    rewrite entry_value_same. discriminate.
  - destruct (entry_value k entry) eqn:He; cbn [lookup_env].
    + rewrite (entry_value_other k k' _ Hk Hk' Hne)
        by (rewrite entry_value_same; discriminate).
      rewrite (entry_value_other k k' entry Hk Hk' Hne) by congruence.
      reflexivity.
    + destruct (entry_value k' entry); [reflexivity | exact IH].
Qed.

Lemma child_environment_markers (testName argv0 : string) (env : list string) :
  absent "SHOULD_CRASH" env = true ->
  lookup_env "SHOULD_CRASH" env = ""
  /\ lookup_env "SHOULD_CRASH" (Env (child_command testName env argv0)) = "1".
Proof.
  intros Habs. cbn [child_command Env]. split.
  - rewrite <- (app_nil_r env) at 1.
    rewrite (lookup_env_absent _ _ [] Habs). reflexivity.
  - rewrite (lookup_env_absent _ _ _ Habs). reflexivity.
Qed.

(** X6. The environment the parent hands to its child.  When the parent's own
    block has no entry for the marker, the parent reads the marker as empty,
    the child reads it as 1, and every other name (without [=]) reads in the
    child as it does in the parent. *)
Theorem child_environment_carries_marker :
  forall (testName argv0 : string) (env : list string),
    absent "SHOULD_CRASH" env = true ->
    lookup_env "SHOULD_CRASH" env = ""
    /\ lookup_env "SHOULD_CRASH" (Env (child_command testName env argv0)) = "1"
    /\ (forall key,
          has_char "="%char key = false -> key <> "SHOULD_CRASH" ->
          lookup_env key (Env (child_command testName env argv0))
          = lookup_env key env).
Proof.
  intros testName argv0 env Habs. cbn [child_command Env]. split; [|split].
  - rewrite <- (app_nil_r env) at 1.
    rewrite (lookup_env_absent _ _ [] Habs). reflexivity.
  - rewrite (lookup_env_absent _ _ _ Habs). reflexivity.
  - intros key Hkey Hne.
    change "SHOULD_CRASH=1" with ("SHOULD_CRASH" ++ "=" ++ "1")%string.
    apply lookup_env_other_entry; [reflexivity | exact Hkey | congruence].
Qed.

(** ** Further properties of ShouldCrash *)

Section ShouldCrashRoles.

Variable Sys : Type.
Variable spawn : Cmd -> Sys -> ChildResult * Sys.
Variable testName : string.
Variables try fail : Callback Sys unit.

Lemma ShouldCrash_child_unfold w :
  lookup_env "SHOULD_CRASH" (environ (proc w)) = "1" ->
  ShouldCrash spawn testName try fail w =
  match try (proc w) with
  | Returned _ p =>
      Exited 0 {| proc := p; trace := (trace w ++ [EvTry]) ++ [EvExit 0] |}
  | Exited code p => Exited code {| proc := p; trace := trace w ++ [EvTry] |}
  | Panicked msg p => Panicked msg {| proc := p; trace := trace w ++ [EvTry] |}
  | OutOfFuel p => OutOfFuel {| proc := p; trace := trace w ++ [EvTry] |}
  end.
Proof.
  intros Hmarker. unfold ShouldCrash, os_Getenv. cbn. unfold M_bind. cbn.
  rewrite Hmarker. cbn. unfold call, invoke. cbn [proc trace].
  destruct (try (proc w)); reflexivity.
Qed.

Lemma as_ExitError_crashed (r : ChildResult) :
  match as_ExitError (Run_error r) with
  | Some e => negb (Success e)
  | None => false
  end = crashed r.
Proof.
  destruct r as [status|signal|reason]; cbn; [|reflexivity|reflexivity].
  destruct (status =? 0) eqn:Hs; cbn; [reflexivity|].
  unfold Success; cbn. rewrite Hs. reflexivity.
Qed.

(** X5. The verdict of the parent, for every way the child can end.  The parent
    runs one command and never the code under test, and it calls [fail]
    exactly when the child did not crash: it exited with status 0, or it
    could not be started.  A child killed by a signal has crashed. *)
Theorem ShouldCrash_parent_verdict :
  forall (w : World Sys) (argv0 : string) (args : list string)
         (r : ChildResult) (p' : Proc Sys),
    lookup_env "SHOULD_CRASH" (environ (proc w)) <> "1" ->
    os_Args (proc w) = argv0 :: args ->
    let cmd := child_command testName (environ (proc w)) argv0 in
    on_proc (spawn cmd) (proc w) = (r, p') ->
    ShouldCrash spawn testName try fail w
    = (if crashed r
       then Returned tt {| proc := p'; trace := trace w ++ [EvRun cmd] |}
       else with_trace (trace w ++ [EvRun cmd; EvFail]) (fail p'))
    /\ exists evs,
        trace (final (ShouldCrash spawn testName try fail w)) = trace w ++ evs
        /\ calls is_run evs = 1%nat
        /\ calls is_try evs = 0%nat
        /\ calls is_fail evs = (if crashed r then 0%nat else 1%nat).
Proof.
  intros w argv0 args r p' Hmarker Hargs cmd Hspawn.
  assert (Hrun : ShouldCrash spawn testName try fail w
                 = (if crashed r
                    then Returned tt {| proc := p'; trace := trace w ++ [EvRun cmd] |}
                    else with_trace (trace w ++ [EvRun cmd; EvFail]) (fail p'))).
  { rewrite (ShouldCrash_parent_unfold Sys spawn testName try fail
               w argv0 args Hmarker Hargs).
    cbv zeta. fold cmd. rewrite Hspawn.
    rewrite <- (as_ExitError_crashed r).
    destruct (as_ExitError (Run_error r)) as [e|];
      [destruct (Success e); cbn [negb]|];
      rewrite <- ?app_assoc; reflexivity. }
  split; [exact Hrun|]. rewrite Hrun.
  destruct (crashed r).
  - exists [EvRun cmd]. repeat split.
  - exists [EvRun cmd; EvFail]. repeat split.
    destruct (fail p'); reflexivity.
Qed.

(** X7. The two roles together, for a parent started without the marker in
    its environment.  [w] is that parent; [wc] is the process the parent's
    command starts, so its environment is the one of the command; and the
    status [r] the parent is told is the one [wc] ends with, which is the
    low eight bits of the code given to [os.Exit].  Then code under test
    that ends the process with a status whose low eight bits are not all
    zero makes the parent return without calling [fail]; code under test
    that returns, or ends the process with status 0 or another multiple of
    256, makes the parent call [fail]. *)
Theorem ShouldCrash_parent_and_child :
  forall (w wc : World Sys) (argv0 : string) (args : list string)
         (r : ChildResult) (p' : Proc Sys),
    absent "SHOULD_CRASH" (environ (proc w)) = true ->
    os_Args (proc w) = argv0 :: args ->
    let cmd := child_command testName (environ (proc w)) argv0 in
    environ (proc wc) = Env cmd ->
    on_proc (spawn cmd) (proc w) = (r, p') ->
    (forall code w',
        ShouldCrash spawn testName try fail wc = Exited code w' ->
        r = ChildExited (wait_status code)) ->
    (forall code pc,
        try (proc wc) = Exited code pc -> wait_status code <> 0 ->
        ShouldCrash spawn testName try fail w
        = Returned tt {| proc := p'; trace := trace w ++ [EvRun cmd] |})
    /\ (forall pc,
          try (proc wc) = Returned tt pc ->
          ShouldCrash spawn testName try fail w
          = with_trace (trace w ++ [EvRun cmd; EvFail]) (fail p'))
    /\ (forall code pc,
          try (proc wc) = Exited code pc -> wait_status code = 0 ->
          ShouldCrash spawn testName try fail w
          = with_trace (trace w ++ [EvRun cmd; EvFail]) (fail p')).
Proof.
  intros w wc argv0 args r p' Habs Hargs cmd Henv Hspawn Hlink.
  destruct (child_environment_markers testName argv0 _ Habs)
    as (Hparent & Hchild).
  assert (Hmarker : lookup_env "SHOULD_CRASH" (environ (proc w)) <> "1")
    by (rewrite Hparent; discriminate).
  assert (Hrole : lookup_env "SHOULD_CRASH" (environ (proc wc)) = "1")
    by (rewrite Henv; exact Hchild).
  pose proof (ShouldCrash_child_unfold wc Hrole) as Hchild_run.
  pose proof (ShouldCrash_parent_unfold Sys spawn testName try fail
                w argv0 args Hmarker Hargs) as Hparent_run.
  cbv zeta in Hparent_run. fold cmd in Hparent_run.
  rewrite Hspawn in Hparent_run.
  split; [|split].
  - intros code pc Htry Hcode. rewrite Htry in Hchild_run.
    rewrite (Hlink _ _ Hchild_run) in Hparent_run.
    rewrite Hparent_run. cbn [Run_error].
    apply Z.eqb_neq in Hcode. rewrite Hcode. cbn [as_ExitError].
    unfold Success; cbn [ExitCode]. rewrite Hcode. reflexivity.
  - intros pc Htry. rewrite Htry in Hchild_run.
    rewrite (Hlink _ _ Hchild_run) in Hparent_run.
    rewrite Hparent_run. cbn. rewrite <- app_assoc. reflexivity.
  - intros code pc Htry Hcode. rewrite Htry in Hchild_run.
    rewrite (Hlink _ _ Hchild_run) in Hparent_run.
    rewrite Hparent_run, Hcode. cbn. rewrite <- app_assoc. reflexivity.
Qed.

(** X8. A process that was started with no arguments at all panics in the parent
    role at [os.Args[0]]: no command is run and neither callback is called. *)
Theorem ShouldCrash_without_arguments :
  forall (w : World Sys),
    lookup_env "SHOULD_CRASH" (environ (proc w)) <> "1" ->
    os_Args (proc w) = [] ->
    exists msg, ShouldCrash spawn testName try fail w = Panicked msg w.
Proof.
  intros w Hmarker Hargs. eexists.
  unfold ShouldCrash, os_Getenv, os_Args_index. cbn. unfold M_bind. cbn.
  apply String.eqb_neq in Hmarker. rewrite Hmarker. cbn.
  rewrite Hargs. reflexivity.
Qed.

End ShouldCrashRoles.

(** ** Further properties of CaptureStdout *)

Section CaptureStdoutPaths.

Variable Sys : Type.
Variable pipe : Sys -> (File * File * error) * Sys.
Variable close : File -> Sys -> error * Sys.
Variable read_all : File -> Sys -> (string * error) * Sys.
Variable printFunction : Callback Sys error.

(** X9. When the pipe cannot be made, [CaptureStdout] returns that error and the
    empty string without having called [printFunction]; the process is as
    the failed [os.Pipe] left it, [os.Stdout] never having been rebound. *)
Theorem CaptureStdout_pipe_error :
  forall (w : World Sys) (r wr : File) (e : Err) (p1 : Proc Sys),
    on_proc pipe (proc w) = (r, wr, Some e, p1) ->
    CaptureStdout pipe close read_all printFunction w
    = Returned ("", Some e) {| proc := p1; trace := trace w |}
    /\ os_Stdout p1 = os_Stdout (proc w).
Proof.
  intros w r wr e p1 Hpipe.
  rewrite (CaptureStdout_unfold Sys pipe close read_all printFunction w).
  rewrite Hpipe. cbv zeta. repeat split.
  exact (on_proc_Stdout Sys _ _ _ _ Hpipe).
Qed.

(** X10. [CaptureStdout] returns output with a nil error exactly when all four
    steps went well, in this order: the pipe was made, [printFunction], run
    with [os.Stdout] bound to the writing end, returned nil, the writing end
    was closed, and the reading end was then read to its end; the output is
    what was read. *)
Theorem CaptureStdout_success :
  forall (w w' : World Sys) (out : string),
    CaptureStdout pipe close read_all printFunction w
    = Returned (out, nil) w'
    <-> exists (r wr : File) (p1 p2 p3 p4 : Proc Sys),
        on_proc pipe (proc w) = (r, wr, nil, p1)
        /\ printFunction (with_Stdout p1 wr) = Returned nil p2
        /\ on_proc (close wr) p2 = (nil, p3)
        /\ on_proc (read_all r) p3 = (out, nil, p4)
        /\ w' = {| proc := with_Stdout p4 (os_Stdout (proc w));
                   trace := trace w ++ [EvPrint] |}.
Proof.
  intros w w' out.
  rewrite (CaptureStdout_unfold Sys pipe close read_all printFunction w).
  split.
  - destruct (on_proc pipe (proc w)) as [[[r wr] [e|]] p1] eqn:Hpipe;
      cbv zeta; [discriminate|].
    rewrite (on_proc_Stdout Sys _ _ _ _ Hpipe).
    destruct (printFunction (with_Stdout p1 wr))
      as [[e|] p2|c p2|m p2|p2] eqn:Hprint; try discriminate.
    destruct (on_proc (close wr) p2) as [[e|] p3] eqn:Hclose;
      [discriminate|].
    destruct (on_proc (read_all r) p3) as [[buf [e|]] p4] eqn:Hread;
      [discriminate|].
    intros H. inversion H; subst.
    exists r, wr, p1, p2, p3, p4. repeat split; assumption.
  - intros (r & wr & p1 & p2 & p3 & p4 & Hpipe & Hprint & Hclose & Hread & ->).
    rewrite Hpipe. cbv zeta. rewrite Hprint, Hclose, Hread.
    rewrite (on_proc_Stdout Sys _ _ _ _ Hpipe). reflexivity.
Qed.

End CaptureStdoutPaths.

(** ** The fake services *)

Section WaitForRuns.

Variable Sys : Type.
Variable clock_read : Sys -> Time * Sys.
Variables (try : Callback Sys bool) (fail : Callback Sys unit).
Variable timeout : Duration.

Lemma rounds_snoc (t : nat -> Time) :
  forall k j,
    rounds t j (S k) = rounds t j k ++ [EvTry; EvNow (t (j + k)%nat)].
Proof.
  induction k as [|k IH]; intros j.
  - cbn. rewrite Nat.add_0_r. reflexivity.
  - change (rounds t j (S (S k)))
      with (EvTry :: EvNow (t j) :: rounds t (S j) (S k)).
    rewrite IH. cbn [rounds app].
    replace (S j + k)%nat with (j + S k)%nat by lia. reflexivity.
Qed.

(** The run of [WaitFor] whose probe says yes after [N] rounds. *)
Lemma WaitFor_run_ready (N : nat) (p q : nat -> Proc Sys) (t : nat -> Time)
      (start : Time) (w : World Sys) (p' : Proc Sys) :
  on_proc clock_read (proc w) = (start, p 0%nat) ->
  (forall i, (i < N)%nat -> try (p i) = Returned false (q i)) ->
  (forall i, (i < N)%nat -> on_proc clock_read (q i) = (t i, p (S i))) ->
  (forall i, (i < N)%nat -> Sub (t i) start <= timeout) ->
  try (p N) = Returned true p' ->
  forall fuel, (N < fuel)%nat ->
    WaitFor clock_read fuel try fail timeout w
    = Returned tt {| proc := p';
                     trace := trace w
                              ++ EvNow start :: rounds t 0 N ++ [EvTry] |}.
Proof.
  intros Hstart Htry Hnow Hin Hlast fuel Hfuel.
  replace fuel with (N + S (fuel - S N))%nat by lia.
  rewrite WaitFor_unfold, Hstart.
  rewrite (WaitFor_loop_rounds Sys clock_read try fail timeout p q t start N 0)
    by (intros i Hi; first [apply Htry | apply Hnow | apply Hin]; lia).
  rewrite WaitFor_loop_unfold. cbn [proc trace Nat.add].
  rewrite Hlast. cbn [app]. rewrite <- !app_assoc. reflexivity.
Qed.

(** The run of [WaitFor] whose probe keeps saying no until, in round [n],
    the clock is past the timeout. *)
Lemma WaitFor_run_timeout (n : nat) (p q : nat -> Proc Sys) (t : nat -> Time)
      (start : Time) (w : World Sys) :
  on_proc clock_read (proc w) = (start, p 0%nat) ->
  (forall i, (i <= n)%nat -> try (p i) = Returned false (q i)) ->
  (forall i, (i <= n)%nat -> on_proc clock_read (q i) = (t i, p (S i))) ->
  (forall i, (i < n)%nat -> Sub (t i) start <= timeout) ->
  Sub (t n) start > timeout ->
  forall fuel, (n < fuel)%nat ->
    WaitFor clock_read fuel try fail timeout w
    = with_trace (trace w ++ EvNow start :: rounds t 0 (S n) ++ [EvFail])
                 (fail (p (S n))).
Proof.
  intros Hstart Htry Hnow Hin Hout fuel Hfuel.
  replace fuel with (n + S (fuel - S n))%nat by lia.
  rewrite WaitFor_unfold, Hstart.
  rewrite (WaitFor_loop_rounds Sys clock_read try fail timeout p q t start n 0)
    by (intros i Hi; first [apply Htry | apply Hnow | apply Hin]; lia).
  rewrite WaitFor_loop_unfold. cbn [proc trace Nat.add].
  rewrite (Htry n), (Hnow n) by lia. cbv zeta.
  destruct (Sub (t n) start >? timeout) eqn:Hgt; [|lia].
  cbn [proc trace]. f_equal.
  rewrite rounds_snoc. cbn [Nat.add app]. rewrite <- !app_assoc. reflexivity.
Qed.

End WaitForRuns.

Section FakeServices.

Variable Sys : Type.
Variable clock_read : Sys -> Time * Sys.
Variable log_write : string -> error -> Sys -> unit * Sys.
Variable net_Dial : string -> string -> Sys -> (Conn * error) * Sys.
Variable conn_Close : Conn -> Sys -> error * Sys.
Variable s3_CreateBucket : S3 -> string -> Sys -> error * Sys.
Variable sqs_CreateQueue : SQS -> string -> Sys -> error * Sys.

Lemma fakeAWSConfig_run (endpoint : string) (w : World Sys) :
  fakeAWSConfig Sys endpoint w
  = Returned (Config (fake_session endpoint))
             {| proc := with_environ (proc w) (aws_environ (environ (proc w)));
                trace := trace w |}.
Proof. reflexivity. Qed.

Lemma on_proc_environ {A} (op : Sys -> A * Sys) (p p' : Proc Sys) (a : A) :
  on_proc op p = (a, p') -> environ p' = environ p.
Proof.
  unfold on_proc. destruct (op (sys p)) as [a' s].
  intros H. inversion H. reflexivity.
Qed.

Lemma aws_environ_keys (env : list string) :
  lookup_env "AWS_ACCESS_KEY" (aws_environ env) = "abc123"
  /\ lookup_env "AWS_SECRET_KEY" (aws_environ env) = "SEKRIT".
Proof.
  unfold aws_environ. split.
  - rewrite lookup_setenv_other by (reflexivity || discriminate).
    apply lookup_setenv_same.
  - apply lookup_setenv_same.
Qed.

(** X11. [fakeAWSConfig] makes the two keys of the client library readable with
    the values written in the code, and changes nothing else: every other
    name (without [=]) reads as before, so the marker of [ShouldCrash] too,
    and the machine, [os.Stdout] and [os.Args] are untouched.  The
    configuration it returns points at the endpoint it was given. *)
Theorem fakeAWSConfig_sets_keys :
  forall (endpoint : string) (w : World Sys),
  exists cfg w',
    fakeAWSConfig Sys endpoint w = Returned cfg w'
    /\ Endpoint cfg = Some endpoint
    /\ lookup_env "AWS_ACCESS_KEY" (environ (proc w')) = "abc123"
    /\ lookup_env "AWS_SECRET_KEY" (environ (proc w')) = "SEKRIT"
    /\ (forall key,
          has_char "="%char key = false ->
          key <> "AWS_ACCESS_KEY" -> key <> "AWS_SECRET_KEY" ->
          lookup_env key (environ (proc w'))
          = lookup_env key (environ (proc w)))
    /\ sys (proc w') = sys (proc w)
    /\ os_Stdout (proc w') = os_Stdout (proc w)
    /\ os_Args (proc w') = os_Args (proc w)
    /\ trace w' = trace w.
Proof.
  intros endpoint w. eexists. eexists.
  split; [apply fakeAWSConfig_run|]. cbn [proc trace with_environ environ].
  destruct (aws_environ_keys (environ (proc w))) as [Ha Hs].
  repeat split; try assumption.
  intros key Hkey Hna Hns. unfold aws_environ.
  rewrite !lookup_setenv_other by (assumption || reflexivity || congruence).
  reflexivity.
Qed.

(** What [NewFakeS3] does once [WaitFor] has returned in state [p]. *)
Lemma NewFakeS3_unfold (fuel : nat) (bucketName : string) (w : World Sys) :
  NewFakeS3 Sys clock_read log_write net_Dial conn_Close s3_CreateBucket
            fuel bucketName w
  = match WaitFor clock_read fuel (tryConnect_S3 Sys net_Dial conn_Close)
                  (Fatal log_write "Could not connect to fakes3" nil)
                  (3 * Second) w with
    | Returned _ w1 =>
        let session := fake_session ("http://0.0.0.0:" ++ s3Port) in
        let client := s3_New session in
        let (err, p2) :=
          on_proc (s3_CreateBucket client bucketName)
                  (with_environ (proc w1) (aws_environ (environ (proc w1)))) in
        match err with
        | None =>
            Returned {| FakeS3_Client := Some client;
                        FakeS3_Session := Some session |}
                     {| proc := p2; trace := trace w1 |}
        | Some _ =>
            Exited 1
              {| proc := snd (on_proc
                                (log_write "Error creating S3 bucket:" err) p2);
                 trace := trace w1 ++ [EvExit 1] |}
        end
    | Exited code w1 => Exited code w1
    | Panicked msg w1 => Panicked msg w1
    | OutOfFuel w1 => OutOfFuel w1
    end.
Proof.
  unfold NewFakeS3. cbn [bind Monad_M]. unfold M_bind at 1.
  destruct (WaitFor clock_read fuel _ _ _ w) as [[] w1|c w1|m w1|w1];
    try reflexivity.
  unfold M_bind at 1. rewrite fakeAWSConfig_run.
  unfold M_bind, syscall, log_Fatal_here, os_Exit. cbn [proc trace].
  destruct (on_proc (s3_CreateBucket _ bucketName) _) as [[e|] p2];
    cbn [proc trace]; [|reflexivity].
  unfold M_bind, syscall. cbn [proc trace].
  destruct (on_proc (log_write _ _) p2) as [[] p3]. reflexivity.
Qed.

(** X12. [NewFakeS3] hands out a client only for a server that answered: when it
    returns, a connection attempt has succeeded, that connection has been
    closed again, the bucket has then been created with the client it
    returns, which points at port 4569 of this host, and the environment
    holds the two keys. *)
Theorem NewFakeS3_returns_connected :
  forall (fuel : nat) (bucketName : string) (w w' : World Sys) (s : FakeS3),
    NewFakeS3 Sys clock_read log_write net_Dial conn_Close s3_CreateBucket
              fuel bucketName w = Returned s w' ->
    let session := fake_session "http://0.0.0.0:4569" in
    s = {| FakeS3_Client := Some (s3_New session);
           FakeS3_Session := Some session |}
    /\ (exists p c p1 cerr p2,
          on_proc (net_Dial "tcp" ":4569") p = (c, nil, p1)
          /\ on_proc (conn_Close c) p1 = (cerr, p2)
          /\ on_proc (s3_CreateBucket (s3_New session) bucketName)
                     (with_environ p2 (aws_environ (environ p2)))
             = (nil, proc w'))
    /\ lookup_env "AWS_ACCESS_KEY" (environ (proc w')) = "abc123"
    /\ lookup_env "AWS_SECRET_KEY" (environ (proc w')) = "SEKRIT".
Proof.
  intros fuel bucketName w w' s Hrun session.
  rewrite NewFakeS3_unfold in Hrun.
  destruct (WaitFor clock_read fuel _ _ _ w) as [[] w1|c w1|m w1|w1] eqn:Hwait;
    try discriminate.
  cbv zeta in Hrun.
  destruct (on_proc (s3_CreateBucket _ bucketName) _) as [[e|] p2] eqn:Hbucket;
    [discriminate|].
  inversion Hrun; subst s w'. cbn [proc].
  split; [reflexivity|]. split.
  - rewrite WaitFor_unfold in Hwait.
    destruct (on_proc clock_read (proc w)) as [start p0].
    assert (Hfatal : forall p u p',
               Fatal log_write "Could not connect to fakes3" nil p
               <> Returned u p') by (intros p u p' H; discriminate H).
    destruct (WaitFor_loop_returns_ready Sys clock_read _ _ _ (fun _ => True)
                start Hfatal (fun _ _ _ _ _ => I) (fun _ _ _ _ _ => I)
                fuel _ _ I Hwait) as ((p & _ & Hready) & _).
    unfold tryConnect_S3 in Hready.
    destruct (on_proc (net_Dial "tcp" (":" ++ s3Port)) p)
      as [[c [e|]] p1] eqn:Hdial; [discriminate|].
    destruct (on_proc (conn_Close c) p1) as [cerr p2'] eqn:Hclose.
    inversion Hready as [Hw1].
    exists p, c, p1, cerr, (proc w1).
    split; [exact Hdial|]. split; [congruence | exact Hbucket].
  - rewrite (on_proc_environ _ _ _ _ Hbucket). cbn [with_environ environ].
    apply aws_environ_keys.
Qed.

(** X14. When no connection attempt succeeds before the clock is more than three
    seconds past the start, [NewFakeS3] does not return: it logs that it
    could not connect and the process ends with status 1, no bucket having
    been asked for.  [p i] is the state in which attempt [i] is made, [q i]
    the state it leaves, [t i] the clock reading that follows. *)
Theorem NewFakeS3_gives_up :
  forall (n : nat) (p q : nat -> Proc Sys) (t : nat -> Time)
         (start : Time) (bucketName : string) (w : World Sys),
    on_proc clock_read (proc w) = (start, p 0%nat) ->
    (forall i, (i <= n)%nat ->
       exists c e, on_proc (net_Dial "tcp" ":4569") (p i) = (c, Some e, q i)) ->
    (forall i, (i <= n)%nat -> on_proc clock_read (q i) = (t i, p (S i))) ->
    (forall i, (i < n)%nat -> Sub (t i) start <= 3 * Second) ->
    Sub (t n) start > 3 * Second ->
    forall fuel, (n < fuel)%nat ->
      NewFakeS3 Sys clock_read log_write net_Dial conn_Close s3_CreateBucket
                fuel bucketName w
      = Exited 1
          {| proc := snd (on_proc (log_write "Could not connect to fakes3" nil)
                                  (p (S n)));
             trace := trace w ++ EvNow start :: rounds t 0 (S n) ++ [EvFail] |}.
Proof.
  intros n p q t start bucketName w Hstart Hdial Hnow Hin Hout fuel Hfuel.
  rewrite NewFakeS3_unfold.
  rewrite (WaitFor_run_timeout Sys clock_read _ _ _ n p q t start w);
    try assumption.
  - reflexivity.
  - intros i Hi. destruct (Hdial i Hi) as (c & e & Hd).
    unfold tryConnect_S3. change (":" ++ s3Port)%string with ":4569".
    rewrite Hd. reflexivity.
Qed.

(** X13. When a connection attempt succeeds after [N] that failed, all within
    three seconds, the connection is closed again and the bucket is asked
    for: [NewFakeS3] returns its client when the bucket is created, and
    logs the error and ends the process with status 1 when it is not. *)
Theorem NewFakeS3_connects :
  forall (N : nat) (p q : nat -> Proc Sys) (t : nat -> Time)
         (start : Time) (bucketName : string) (w : World Sys)
         (c : Conn) (cerr err : error) (p1 p2 p3 : Proc Sys),
    on_proc clock_read (proc w) = (start, p 0%nat) ->
    (forall i, (i < N)%nat ->
       exists c e, on_proc (net_Dial "tcp" ":4569") (p i) = (c, Some e, q i)) ->
    (forall i, (i < N)%nat -> on_proc clock_read (q i) = (t i, p (S i))) ->
    (forall i, (i < N)%nat -> Sub (t i) start <= 3 * Second) ->
    on_proc (net_Dial "tcp" ":4569") (p N) = (c, nil, p1) ->
    on_proc (conn_Close c) p1 = (cerr, p2) ->
    let session := fake_session "http://0.0.0.0:4569" in
    on_proc (s3_CreateBucket (s3_New session) bucketName)
            (with_environ p2 (aws_environ (environ p2))) = (err, p3) ->
    let tr := trace w ++ EvNow start :: rounds t 0 N ++ [EvTry] in
    forall fuel, (N < fuel)%nat ->
      NewFakeS3 Sys clock_read log_write net_Dial conn_Close s3_CreateBucket
                fuel bucketName w
      = match err with
        | None =>
            Returned {| FakeS3_Client := Some (s3_New session);
                        FakeS3_Session := Some session |}
                     {| proc := p3; trace := tr |}
        | Some _ =>
            Exited 1
              {| proc := snd (on_proc
                                (log_write "Error creating S3 bucket:" err) p3);
                 trace := tr ++ [EvExit 1] |}
        end.
Proof.
  intros N p q t start bucketName w c cerr err p1 p2 p3
         Hstart Hdial Hnow Hin Hok Hclose session Hbucket tr fuel Hfuel.
  rewrite NewFakeS3_unfold.
  rewrite (WaitFor_run_ready Sys clock_read _ _ _ N p q t start w p2);
    try assumption.
  - cbv zeta. cbn [proc trace].
    change ("http://0.0.0.0:" ++ s3Port)%string with "http://0.0.0.0:4569".
    fold session. rewrite Hbucket. reflexivity.
  - intros i Hi. destruct (Hdial i Hi) as (c' & e & Hd).
    unfold tryConnect_S3. change (":" ++ s3Port)%string with ":4569".
    rewrite Hd. reflexivity.
  - unfold tryConnect_S3. change (":" ++ s3Port)%string with ":4569".
    rewrite Hok, Hclose. reflexivity.
Qed.

(** [NewFakeSQS] as the run of [WaitFor] on the state that holds its
    captured variable, and what it makes of the result. *)
Lemma NewFakeSQS_unfold (fuel : nat) (queueName : string) (w : World Sys) :
  NewFakeSQS Sys clock_read log_write sqs_CreateQueue fuel queueName w
  = let pe := with_environ (proc w) (aws_environ (environ (proc w))) in
    let s0 := {| FakeSQS_Client := None;
                 FakeSQS_Session := Some (fake_session sqsEndpoint);
                 URL := "" |} in
    match WaitFor (beside clock_read) fuel
                  (tryConnect_SQS Sys sqs_CreateQueue queueName)
                  (Fatal (fun text err => beside (log_write text err))
                         "fake_sqs failed to start in a reasonable amount of time"
                         nil)
                  (10 * Second)
                  {| proc := with_local s0 pe; trace := trace w |} with
    | Returned _ w1 =>
        Returned {| FakeSQS_Client := FakeSQS_Client (local (proc w1));
                    FakeSQS_Session := FakeSQS_Session (local (proc w1));
                    URL := (sqsEndpoint ++ "/" ++ queueName)%string |}
                 {| proc := without_local (proc w1); trace := trace w1 |}
    | Exited code w1 =>
        Exited code {| proc := without_local (proc w1); trace := trace w1 |}
    | Panicked msg w1 =>
        Panicked msg {| proc := without_local (proc w1); trace := trace w1 |}
    | OutOfFuel w1 =>
        OutOfFuel {| proc := without_local (proc w1); trace := trace w1 |}
    end.
Proof.
  unfold NewFakeSQS. cbn [bind Monad_M]. unfold M_bind at 1.
  rewrite fakeAWSConfig_run. cbv zeta.
  unfold M_bind, capturing. cbn [proc trace].
  destruct (WaitFor (beside clock_read) fuel _ _ _ _)
    as [[] w1|c w1|m w1|w1]; reflexivity.
Qed.

(** X15. [NewFakeSQS] hands out a client only for a queue that exists.  The
    client field is assigned nowhere but inside the probe; [WaitFor] never
    returns without a probe call that said yes, so when [NewFakeSQS] returns
    the field holds a client, made from the session for port 4568, the
    queue has been created with it, and the URL is the endpoint, a slash and
    the queue name. *)
Theorem NewFakeSQS_returns_connected :
  forall (fuel : nat) (queueName : string) (w w' : World Sys) (s : FakeSQS),
    NewFakeSQS Sys clock_read log_write sqs_CreateQueue fuel queueName w
    = Returned s w' ->
    let session := fake_session "http://0.0.0.0:4568" in
    s = {| FakeSQS_Client := Some (sqs_New session);
           FakeSQS_Session := Some session;
           URL := ("http://0.0.0.0:4568/" ++ queueName)%string |}
    /\ (exists m,
          sqs_CreateQueue (sqs_New session) queueName m = (nil, sys (proc w')))
    /\ lookup_env "AWS_ACCESS_KEY" (environ (proc w')) = "abc123"
    /\ lookup_env "AWS_SECRET_KEY" (environ (proc w')) = "SEKRIT".
Proof.
  intros fuel queueName w w' s Hrun session.
  rewrite NewFakeSQS_unfold in Hrun. cbv zeta in Hrun.
  set (E := aws_environ (environ (proc w))) in *.
  destruct (WaitFor (beside clock_read) fuel _ _ _ _)
    as [[] w1|c w1|m w1|w1] eqn:Hwait; try discriminate.
  inversion Hrun; subst s w'. clear Hrun. cbn [proc].
  rewrite WaitFor_unfold in Hwait. cbn [proc trace] in Hwait.
  destruct (on_proc (beside clock_read) _) as [start p0] eqn:Hstart.
  set (Inv := fun p : Proc (FakeSQS * Sys) =>
                FakeSQS_Session (local p) = Some session /\ environ p = E).
  assert (Hfatal : forall (p : Proc (FakeSQS * Sys)) u p',
             Fatal (fun text err => beside (log_write text err))
                   "fake_sqs failed to start in a reasonable amount of time"
                   nil p <> Returned u p') by (intros p u p' H; discriminate H).
  assert (Htry : forall p b p',
             Inv p ->
             tryConnect_SQS Sys sqs_CreateQueue queueName p = Returned b p' ->
             Inv p').
  { intros p b p' [Hs He] H. unfold tryConnect_SQS in H. rewrite Hs in H.
    unfold on_proc, beside in H. cbn in H.
    destruct (sqs_CreateQueue _ queueName (snd (sys p))) as [err m'].
    inversion H; subst p'. split; [reflexivity | exact He]. }
  assert (Hnow : forall (p : Proc (FakeSQS * Sys)) t p',
             Inv p -> on_proc (beside clock_read) p = (t, p') -> Inv p').
  { intros p t p' [Hs He] H. unfold on_proc, beside in H.
    destruct (clock_read (snd (sys p))) as [t' m']. inversion H; subst p'.
    split; [exact Hs | exact He]. }
  assert (H0 : Inv p0).
  { unfold on_proc, beside in Hstart. cbn in Hstart.
    destruct (clock_read (sys (proc w))) as [t' m']. inversion Hstart; subst p0.
    split; reflexivity. }
  destruct (WaitFor_loop_returns_ready (FakeSQS * Sys) (beside clock_read)
              _ _ _ Inv start Hfatal Htry Hnow fuel
              {| proc := p0; trace := trace w ++ [EvNow start] |} w1 H0 Hwait)
    as ((p & [Hs He] & Hready) & _).
  unfold tryConnect_SQS in Hready. rewrite Hs in Hready.
  unfold on_proc, beside in Hready. cbn in Hready.
  destruct (sqs_CreateQueue (sqs_New session) queueName (snd (sys p)))
    as [[e|] m'] eqn:Hqueue; [discriminate|].
  inversion Hready as [Hw1]. cbn.
  split; [reflexivity|]. split; [exists (snd (sys p)); exact Hqueue|].
  rewrite He. apply aws_environ_keys.
Qed.

(** The states of the run of [WaitFor] inside [NewFakeSQS]: the process
    [pe] with the machine in state [m], and the captured variable with no
    client before the first probe call and with the client after it. *)
Lemma NewFakeSQS_rounds (queueName : string) (pe : Proc Sys)
      (N : nat) (m m' : nat -> Sys) (t : nat -> Time) (start : Time) :
  let session := fake_session sqsEndpoint in
  let client := sqs_New session in
  let s0 := {| FakeSQS_Client := None; FakeSQS_Session := Some session;
               URL := "" |} in
  let s1 := {| FakeSQS_Client := Some client; FakeSQS_Session := Some session;
               URL := "" |} in
  let P := fun i : nat =>
             set_sys (with_local s0 pe)
                     (match i with O => s0 | S _ => s1 end, m i) in
  let Q := fun i : nat => set_sys (with_local s0 pe) (s1, m' i) in
  clock_read (sys pe) = (start, m 0%nat) ->
  (forall i, (i < N)%nat ->
     exists e, sqs_CreateQueue client queueName (m i) = (Some e, m' i)) ->
  (forall i, (i < N)%nat -> clock_read (m' i) = (t i, m (S i))) ->
  on_proc (beside clock_read) (with_local s0 pe) = (start, P 0%nat)
  /\ (forall i, (i < N)%nat ->
        tryConnect_SQS Sys sqs_CreateQueue queueName (P i)
        = Returned false (Q i))
  /\ (forall i, (i < N)%nat ->
        on_proc (beside clock_read) (Q i) = (t i, P (S i)))
  /\ (forall mlast,
        sqs_CreateQueue client queueName (m N) = (nil, mlast) ->
        tryConnect_SQS Sys sqs_CreateQueue queueName (P N)
        = Returned true (set_sys (with_local s0 pe) (s1, mlast))).
Proof.
  intros session client s0 s1 P Q Hstart Hqueue Hnow.
  split; [|split; [|split]].
  - unfold on_proc, beside. cbn. rewrite Hstart. reflexivity.
  - intros i Hi. destruct (Hqueue i Hi) as [e He].
    unfold tryConnect_SQS, on_proc, beside.
    destruct i; cbn; fold session; fold client; rewrite He; reflexivity.
  - intros i Hi. unfold on_proc, beside. cbn. rewrite (Hnow i Hi).
    reflexivity.
  - intros mlast Hlast. unfold tryConnect_SQS, on_proc, beside.
    destruct N; cbn; fold session; fold client; rewrite Hlast; reflexivity.
Qed.

(** X16. When the queue can be created at the attempt after [N] that failed,
    all within ten seconds, [NewFakeSQS] returns a client for it.  [m i] is
    the state of the machine at attempt [i], [m' i] the state the attempt
    leaves, [t i] the clock reading that follows. *)
Theorem NewFakeSQS_connects :
  forall (N : nat) (m m' : nat -> Sys) (t : nat -> Time) (start : Time)
         (queueName : string) (w : World Sys) (mlast : Sys),
    let session := fake_session "http://0.0.0.0:4568" in
    clock_read (sys (proc w)) = (start, m 0%nat) ->
    (forall i, (i < N)%nat ->
       exists e,
         sqs_CreateQueue (sqs_New session) queueName (m i) = (Some e, m' i)) ->
    (forall i, (i < N)%nat -> clock_read (m' i) = (t i, m (S i))) ->
    (forall i, (i < N)%nat -> Sub (t i) start <= 10 * Second) ->
    sqs_CreateQueue (sqs_New session) queueName (m N) = (nil, mlast) ->
    forall fuel, (N < fuel)%nat ->
      NewFakeSQS Sys clock_read log_write sqs_CreateQueue fuel queueName w
      = Returned
          {| FakeSQS_Client := Some (sqs_New session);
             FakeSQS_Session := Some session;
             URL := ("http://0.0.0.0:4568/" ++ queueName)%string |}
          {| proc := set_sys (with_environ (proc w)
                                (aws_environ (environ (proc w)))) mlast;
             trace := trace w ++ EvNow start :: rounds t 0 N ++ [EvTry] |}.
Proof.
  intros N m m' t start queueName w mlast session
         Hstart Hqueue Hnow Hin Hlast fuel Hfuel.
  rewrite NewFakeSQS_unfold. cbv zeta.
  destruct (NewFakeSQS_rounds queueName
              (with_environ (proc w) (aws_environ (environ (proc w))))
              N m m' t start Hstart Hqueue Hnow)
    as (H0 & Htry & Hclock & Hready).
  set (pe := with_environ (proc w) (aws_environ (environ (proc w)))) in *.
  set (s0 := {| FakeSQS_Client := None;
                FakeSQS_Session := Some (fake_session sqsEndpoint);
                URL := "" |}) in *.
  set (s1 := {| FakeSQS_Client := Some (sqs_New (fake_session sqsEndpoint));
                FakeSQS_Session := Some (fake_session sqsEndpoint);
                URL := "" |}) in *.
  rewrite (WaitFor_run_ready (FakeSQS * Sys) (beside clock_read) _ _ _ N
             (fun i => set_sys (with_local s0 pe)
                               (match i with O => s0 | S _ => s1 end, m i))
             (fun i => set_sys (with_local s0 pe) (s1, m' i))
             t start {| proc := with_local s0 pe; trace := trace w |} _
             H0 Htry Hclock Hin (Hready mlast Hlast) fuel Hfuel).
  reflexivity.
Qed.

(** X17. When the queue cannot be created before the clock is more than ten
    seconds past the start, [NewFakeSQS] does not return: it logs that
    fake_sqs failed to start and the process ends with status 1. *)
Theorem NewFakeSQS_gives_up :
  forall (n : nat) (m m' : nat -> Sys) (t : nat -> Time) (start : Time)
         (queueName : string) (w : World Sys),
    let session := fake_session "http://0.0.0.0:4568" in
    clock_read (sys (proc w)) = (start, m 0%nat) ->
    (forall i, (i < S n)%nat ->
       exists e,
         sqs_CreateQueue (sqs_New session) queueName (m i) = (Some e, m' i)) ->
    (forall i, (i < S n)%nat -> clock_read (m' i) = (t i, m (S i))) ->
    (forall i, (i < n)%nat -> Sub (t i) start <= 10 * Second) ->
    Sub (t n) start > 10 * Second ->
    forall fuel, (n < fuel)%nat ->
      NewFakeSQS Sys clock_read log_write sqs_CreateQueue fuel queueName w
      = Exited 1
          {| proc := set_sys (with_environ (proc w)
                                (aws_environ (environ (proc w))))
                       (snd (log_write
                               "fake_sqs failed to start in a reasonable amount of time"
                               nil (m (S n))));
             trace := trace w ++ EvNow start :: rounds t 0 (S n) ++ [EvFail] |}.
Proof.
  intros n m m' t start queueName w session
         Hstart Hqueue Hnow Hin Hout fuel Hfuel.
  rewrite NewFakeSQS_unfold. cbv zeta.
  destruct (NewFakeSQS_rounds queueName
              (with_environ (proc w) (aws_environ (environ (proc w))))
              (S n) m m' t start Hstart Hqueue Hnow)
    as (H0 & Htry & Hclock & _).
  set (pe := with_environ (proc w) (aws_environ (environ (proc w)))) in *.
  set (s0 := {| FakeSQS_Client := None;
                FakeSQS_Session := Some (fake_session sqsEndpoint);
                URL := "" |}) in *.
  set (s1 := {| FakeSQS_Client := Some (sqs_New (fake_session sqsEndpoint));
                FakeSQS_Session := Some (fake_session sqsEndpoint);
                URL := "" |}) in *.
  rewrite (WaitFor_run_timeout (FakeSQS * Sys) (beside clock_read) _ _ _ n
             (fun i => set_sys (with_local s0 pe)
                               (match i with O => s0 | S _ => s1 end, m i))
             (fun i => set_sys (with_local s0 pe) (s1, m' i))
             t start {| proc := with_local s0 pe; trace := trace w |} H0);
    try assumption.
  - unfold Fatal, on_proc, beside. cbn.
    destruct (log_write _ nil (m (S n))) as [[] mexit]. reflexivity.
  - intros i Hi. apply Htry. lia.
  - intros i Hi. apply Hclock. lia.
Qed.

End FakeServices.

(** ** Runs of the further properties on the machine *)

(** A probe that is ready from time 13 on, [log.Fatal] as [fail]: the wait
    returns in the state the third probe call left. *)
Lemma WaitFor_returns_only_when_ready_run :
  exists p, ready_from 13 p = Returned true (at_tick 2).
Proof.
  refine (proj1
    (WaitFor_returns_only_when_ready Machine machine_clock_read
       (ready_from 13) log_Fatal 5 _ 9%nat (process_on machine0 [])
       {| proc := at_tick 2;
          trace := [EvNow 10; EvTry; EvNow 11; EvTry; EvNow 12; EvTry] |} _)).
  - intros p u p' H. discriminate H.
  - reflexivity.
Defined.

(** A probe that ends the process with status 3 at its third call. *)
Lemma WaitFor_probe_does_not_return_run :
  WaitFor machine_clock_read 9 (crashes_from 13) returns 5
          (process_on machine0 [])
  = Exited 3
      {| proc := at_tick 2;
         trace := [EvNow 10; EvTry; EvNow 11; EvTry; EvNow 12; EvTry] |}.
Proof.
  refine (proj1 (proj2
    (WaitFor_probe_does_not_return Machine machine_clock_read
       (crashes_from 13) returns 5 2%nat at_tick at_tick
       (fun i => 11 + Z.of_nat i) 10 (process_on machine0 []) _ _ _ _))
    3 (at_tick 2) _ 9%nat _).
  - reflexivity.
  - intros [|[|i]] Hi; [reflexivity | reflexivity | lia].
  - intros [|[|i]] Hi; [reflexivity | reflexivity | lia].
  - intros [|[|i]] Hi; [unfold Sub; simpl; lia | unfold Sub; simpl; lia | lia].
  - reflexivity.
  - lia.
Defined.

(** A timeout of minus one nanosecond and a probe that is not ready. *)
Lemma WaitFor_negative_timeout_run :
  WaitFor machine_clock_read 1 never_ready returns (-1)
          (process_on machine0 [])
  = Returned tt
      {| proc := at_tick 1; trace := [EvNow 10; EvTry; EvNow 11; EvFail] |}.
Proof.
  refine (proj1
    (WaitFor_negative_timeout Machine machine_clock_read never_ready returns
       (-1) 0%nat (process_on machine0 []) 10 11 (at_tick 0) (at_tick 0)
       (at_tick 1) _ _ _ _ _)).
  - lia.
  - reflexivity.
  - reflexivity.
  - reflexivity.
  - lia.
Defined.

(** The child of a parent whose environment has two other entries. *)
Lemma child_environment_carries_marker_run :
  lookup_env "SHOULD_CRASH"
             (Env (child_command "ExampleShouldCrash"
                                 ["HOME=/root"; "PATH=/bin"]
                                 "/tmp/testutil.test")) = "1"
  /\ lookup_env "PATH"
                (Env (child_command "ExampleShouldCrash"
                                    ["HOME=/root"; "PATH=/bin"]
                                    "/tmp/testutil.test")) = "/bin".
Proof.
  split.
  - refine (proj1 (proj2
      (child_environment_carries_marker "ExampleShouldCrash"
         "/tmp/testutil.test" ["HOME=/root"; "PATH=/bin"] _))).
    reflexivity.
  - refine (eq_trans (proj2 (proj2
      (child_environment_carries_marker "ExampleShouldCrash"
         "/tmp/testutil.test" ["HOME=/root"; "PATH=/bin"] _)) "PATH" _ _) _).
    + reflexivity.
    + reflexivity.
    + discriminate.
    + reflexivity.
Defined.

(** The parent of a child that was killed by signal 9. *)
Lemma ShouldCrash_parent_verdict_run :
  ShouldCrash machine_spawn "ExampleShouldCrash" returns returns
              (process_on (with_child machine0 (ChildSignaled 9)) ["HOME=/root"])
  = Returned tt
      {| proc := proc (process_on (with_child machine0 (ChildSignaled 9))
                                  ["HOME=/root"]);
         trace := [EvRun (child_of_test ["HOME=/root"])] |}.
Proof.
  refine (proj1
    (ShouldCrash_parent_verdict Machine machine_spawn "ExampleShouldCrash"
       returns returns
       (process_on (with_child machine0 (ChildSignaled 9)) ["HOME=/root"])
       "/tmp/testutil.test" ["-test.v"] (ChildSignaled 9)
       (proc (process_on (with_child machine0 (ChildSignaled 9)) ["HOME=/root"]))
       _ _ _)).
  - simpl. discriminate.
  - reflexivity.
  - reflexivity.
Defined.

(** The first example of the test file: the code under test is [log.Fatal],
    the child ends with status 1 and the parent does not call [fail].  And
    code under test that calls [os.Exit(256)]: the parent is told status 0
    and calls [fail]. *)
Lemma ShouldCrash_parent_and_child_run :
  ShouldCrash machine_spawn "ExampleShouldCrash" log_Fatal returns
              (process_on (with_child machine0 (ChildExited 1)) ["HOME=/root"])
  = Returned tt
      {| proc := proc (process_on (with_child machine0 (ChildExited 1))
                                  ["HOME=/root"]);
         trace := [EvRun (child_of_test ["HOME=/root"])] |}
  /\ ShouldCrash machine_spawn "ExampleShouldCrash" (exits_with 256) returns
                 (process_on (with_child machine0 (ChildExited 0))
                             ["HOME=/root"])
     = Returned tt
         {| proc := proc (process_on (with_child machine0 (ChildExited 0))
                                     ["HOME=/root"]);
            trace := [EvRun (child_of_test ["HOME=/root"]); EvFail] |}.
Proof.
  split.
  - refine (proj1
      (ShouldCrash_parent_and_child Machine machine_spawn "ExampleShouldCrash"
         log_Fatal returns
         (process_on (with_child machine0 (ChildExited 1)) ["HOME=/root"])
         (process_on machine0 ["HOME=/root"; "SHOULD_CRASH=1"])
         "/tmp/testutil.test" ["-test.v"] (ChildExited 1)
         (proc (process_on (with_child machine0 (ChildExited 1)) ["HOME=/root"]))
         _ _ _ _ _) 1
      (proc (process_on machine0 ["HOME=/root"; "SHOULD_CRASH=1"])) _ _).
    + reflexivity.
    + reflexivity.
    + reflexivity.
    + reflexivity.
    + intros code w' H. inversion H. reflexivity.
    + reflexivity.
    + discriminate.
  - refine (proj2 (proj2
      (ShouldCrash_parent_and_child Machine machine_spawn "ExampleShouldCrash"
         (exits_with 256) returns
         (process_on (with_child machine0 (ChildExited 0)) ["HOME=/root"])
         (process_on machine0 ["HOME=/root"; "SHOULD_CRASH=1"])
         "/tmp/testutil.test" ["-test.v"] (ChildExited 0)
         (proc (process_on (with_child machine0 (ChildExited 0)) ["HOME=/root"]))
         _ _ _ _ _)) 256
      (proc (process_on machine0 ["HOME=/root"; "SHOULD_CRASH=1"])) _ _).
    + reflexivity.
    + reflexivity.
    + reflexivity.
    + reflexivity.
    + intros code w' H. inversion H. reflexivity.
    + reflexivity.
    + reflexivity.
Defined.

(** A parent that was started with no arguments. *)
Lemma ShouldCrash_without_arguments_run :
  exists msg,
    ShouldCrash machine_spawn "ExampleShouldCrash" returns returns
                {| proc := {| os_Stdout := 1; os_Args := [];
                              environ := []; sys := machine0 |};
                   trace := [] |}
    = Panicked msg
               {| proc := {| os_Stdout := 1; os_Args := [];
                             environ := []; sys := machine0 |};
                  trace := [] |}.
Proof.
  refine (ShouldCrash_without_arguments Machine machine_spawn
            "ExampleShouldCrash" returns returns
            {| proc := {| os_Stdout := 1; os_Args := [];
                          environ := []; sys := machine0 |};
               trace := [] |} _ _).
  - simpl. discriminate.
  - reflexivity.
Defined.

(** A machine that has run out of file descriptors. *)
Lemma CaptureStdout_pipe_error_run :
  CaptureStdout machine_pipe machine_close machine_read_all
                (fmt_Print "lost")
                (process_on (failing (Some (OtherError "too many open files"))
                                     nil nil) [])
  = Returned ("", Some (OtherError "too many open files"))
             (process_on (failing (Some (OtherError "too many open files"))
                                  nil nil) []).
Proof.
  refine (proj1
    (CaptureStdout_pipe_error Machine machine_pipe machine_close
       machine_read_all (fmt_Print "lost")
       (process_on (failing (Some (OtherError "too many open files")) nil nil) [])
       0 0 (OtherError "too many open files")
       (proc (process_on (failing (Some (OtherError "too many open files"))
                                  nil nil) [])) _)).
  reflexivity.
Defined.

(** A fakes3 that accepts connections from three seconds after the start:
    the first attempt fails, the second, two seconds later, succeeds. *)
Lemma NewFakeS3_connects_run :
  exists w',
    NewFakeS3 Machine machine_slow_clock_read machine_log_write
              (machine_dial (10 + 3 * Second)) machine_conn_close
              (machine_create_bucket true) 5 "mybucket"
              (process_on machine0 [])
    = Returned
        {| FakeS3_Client := Some (s3_New (fake_session "http://0.0.0.0:4569"));
           FakeS3_Session := Some (fake_session "http://0.0.0.0:4569") |}
        w'.
Proof.
  eexists.
  refine (NewFakeS3_connects Machine machine_slow_clock_read machine_log_write
            (machine_dial (10 + 3 * Second)) machine_conn_close
            (machine_create_bucket true)
            1%nat slow_tick slow_tick
            (fun i => 10 + 2 * Second * (Z.of_nat i + 1)) 10 "mybucket"
            (process_on machine0 []) 5 nil nil
            (slow_tick 1) (slow_tick 1)
            (with_environ (slow_tick 1) (aws_environ []))
            _ _ _ _ _ _ _ 5%nat _).
  - reflexivity.
  - intros [|i] Hi; [eexists; eexists; reflexivity | lia].
  - intros [|i] Hi; [reflexivity | lia].
  - intros [|i] Hi; [unfold Sub; simpl; lia | lia].
  - reflexivity.
  - reflexivity.
  - reflexivity.
  - lia.
Defined.

(** A fakes3 that is not there: two attempts, the second more than three
    seconds after the start, and the process ends with status 1. *)
Lemma NewFakeS3_gives_up_run :
  exists w',
    NewFakeS3 Machine machine_slow_clock_read machine_log_write
              (machine_dial (1000 * Second)) machine_conn_close
              (machine_create_bucket true) 5 "mybucket"
              (process_on machine0 [])
    = Exited 1 w'.
Proof.
  eexists.
  refine (NewFakeS3_gives_up Machine machine_slow_clock_read machine_log_write
            (machine_dial (1000 * Second)) machine_conn_close
            (machine_create_bucket true)
            1%nat slow_tick slow_tick
            (fun i => 10 + 2 * Second * (Z.of_nat i + 1)) 10 "mybucket"
            (process_on machine0 []) _ _ _ _ _ 5%nat _).
  - reflexivity.
  - intros [|[|i]] Hi; [eexists; eexists; reflexivity
                       | eexists; eexists; reflexivity | lia].
  - intros [|[|i]] Hi; [reflexivity | reflexivity | lia].
  - intros [|i] Hi; [unfold Sub; simpl; lia | lia].
  - reflexivity.
  - lia.
Defined.

(** After [NewFakeS3] has returned on that machine the secret key reads as
    the code set it. *)
Lemma NewFakeS3_returns_connected_run :
  lookup_env "AWS_SECRET_KEY"
    (environ (proc (final
       (NewFakeS3 Machine machine_slow_clock_read machine_log_write
                  (machine_dial (10 + 3 * Second)) machine_conn_close
                  (machine_create_bucket true) 5 "mybucket"
                  (process_on machine0 [])))))
  = "SEKRIT".
Proof.
  refine (proj2 (proj2 (proj2
    (NewFakeS3_returns_connected Machine machine_slow_clock_read
       machine_log_write (machine_dial (10 + 3 * Second)) machine_conn_close
       (machine_create_bucket true) 5%nat "mybucket" (process_on machine0 [])
       {| proc := with_environ (slow_tick 1) (aws_environ []);
          trace := [EvNow 10; EvTry; EvNow (10 + 2 * Second); EvTry] |}
       {| FakeS3_Client := Some (s3_New (fake_session "http://0.0.0.0:4569"));
          FakeS3_Session := Some (fake_session "http://0.0.0.0:4569") |}
       _)))).
  reflexivity.
Defined.

(** A fake_sqs that creates queues from three seconds after the start. *)
Lemma NewFakeSQS_connects_run :
  exists w',
    NewFakeSQS Machine machine_slow_clock_read machine_log_write
               (machine_create_queue (10 + 3 * Second)) 5 "fake-queue"
               (process_on machine0 [])
    = Returned
        {| FakeSQS_Client :=
             Some (sqs_New (fake_session "http://0.0.0.0:4568"));
           FakeSQS_Session := Some (fake_session "http://0.0.0.0:4568");
           URL := "http://0.0.0.0:4568/fake-queue" |}
        w'.
Proof.
  eexists.
  refine (NewFakeSQS_connects Machine machine_slow_clock_read machine_log_write
            (machine_create_queue (10 + 3 * Second))
            1%nat slow_machine slow_machine
            (fun i => 10 + 2 * Second * (Z.of_nat i + 1)) 10 "fake-queue"
            (process_on machine0 []) (slow_machine 1) _ _ _ _ _ 5%nat _).
  - reflexivity.
  - intros [|i] Hi; [eexists; reflexivity | lia].
  - intros [|i] Hi; [reflexivity | lia].
  - intros [|i] Hi; [unfold Sub; simpl; lia | lia].
  - reflexivity.
  - lia.
Defined.

(** A fake_sqs that is not there: six attempts, the last more than ten
    seconds after the start, and the process ends with status 1. *)
Lemma NewFakeSQS_gives_up_run :
  exists w',
    NewFakeSQS Machine machine_slow_clock_read machine_log_write
               (machine_create_queue (1000 * Second)) 9 "fake-queue"
               (process_on machine0 [])
    = Exited 1 w'.
Proof.
  eexists.
  refine (NewFakeSQS_gives_up Machine machine_slow_clock_read machine_log_write
            (machine_create_queue (1000 * Second))
            5%nat slow_machine slow_machine
            (fun i => 10 + 2 * Second * (Z.of_nat i + 1)) 10 "fake-queue"
            (process_on machine0 []) _ _ _ _ _ 9%nat _).
  - reflexivity.
  - intros i Hi.
    do 6 (destruct i as [|i]; [eexists; reflexivity|]). lia.
  - intros i Hi. do 6 (destruct i as [|i]; [reflexivity|]). lia.
  - intros i Hi.
    do 5 (destruct i as [|i]; [unfold Sub; simpl; lia|]). lia.
  - reflexivity.
  - lia.
Defined.

(** After [NewFakeSQS] has returned on that machine the queue exists: the
    request that created it left the machine as it is now. *)
Lemma NewFakeSQS_returns_connected_run :
  exists m,
    machine_create_queue (10 + 3 * Second)
                         (sqs_New (fake_session "http://0.0.0.0:4568"))
                         "fake-queue" m
    = (nil, slow_machine 1).
Proof.
  refine (proj1 (proj2
    (NewFakeSQS_returns_connected Machine machine_slow_clock_read
       machine_log_write (machine_create_queue (10 + 3 * Second))
       5%nat "fake-queue" (process_on machine0 [])
       {| proc := set_sys (with_environ (proc (process_on machine0 []))
                                        (aws_environ []))
                          (slow_machine 1);
          trace := [EvNow 10; EvTry; EvNow (10 + 2 * Second); EvTry] |}
       {| FakeSQS_Client :=
            Some (sqs_New (fake_session "http://0.0.0.0:4568"));
          FakeSQS_Session := Some (fake_session "http://0.0.0.0:4568");
          URL := "http://0.0.0.0:4568/fake-queue" |}
       _))).
  reflexivity.
Defined.

(** ** The largest timeout *)

Section WaitForLargestTimeout.

Variable Sys : Type.
Variable clock_read : Sys -> Time * Sys.
Variables (try : Callback Sys bool) (fail : Callback Sys unit).
Variable timeout : Duration.

(** No elapsed time is past a timeout of the largest [Duration]: with a
    probe that keeps returning false the loop goes on polling, for as long
    as it is followed, and does not call [fail]. *)
Lemma WaitFor_loop_past_maxDuration start :
  maxDuration <= timeout ->
  (forall p, exists p', try p = Returned false p') ->
  forall (fuel : nat) (w : World Sys),
  exists w',
    WaitFor_loop clock_read fuel try fail timeout start w = OutOfFuel w'
    /\ calls is_fail (trace w') = calls is_fail (trace w).
Proof.
  intros Hmax Hfalse. induction fuel as [|fuel IH]; intros w.
  - exists w. split; reflexivity.
  - rewrite WaitFor_loop_unfold.
    destruct (Hfalse (proc w)) as [p Htry]. rewrite Htry.
    destruct (on_proc clock_read p) as [tnow p']. cbv zeta.
    pose proof (Sub_bounds tnow start) as Hb.
    destruct (Sub tnow start >? timeout) eqn:Hgt; [lia|].
    destruct (IH {| proc := p';
                    trace := (trace w ++ [EvTry]) ++ [EvNow tnow] |})
      as (w' & Hrun & Hcalls).
    exists w'. split; [exact Hrun|].
    rewrite Hcalls. cbn [trace]. rewrite !calls_app. cbn. lia.
Qed.

Lemma WaitFor_past_maxDuration :
  maxDuration <= timeout ->
  (forall p, exists p', try p = Returned false p') ->
  forall (fuel : nat) (w : World Sys),
  exists w',
    WaitFor clock_read fuel try fail timeout w = OutOfFuel w'
    /\ calls is_fail (trace w') = calls is_fail (trace w).
Proof.
  intros Hmax Hfalse fuel w. rewrite WaitFor_unfold.
  destruct (on_proc clock_read (proc w)) as [start p].
  destruct (WaitFor_loop_past_maxDuration start Hmax Hfalse fuel
              {| proc := p; trace := trace w ++ [EvNow start] |})
    as (w' & Hrun & Hcalls).
  exists w'. split; [exact Hrun|].
  rewrite Hcalls. cbn [trace]. rewrite calls_app. cbn. lia.
Qed.

End WaitForLargestTimeout.

(** C2, as stated, fails at the largest timeout, [math.MaxInt64]
    nanoseconds: on the machine, with a probe that is never ready, [WaitFor]
    is still polling however long it is followed, and has not called
    [fail]; no clock reading, however late, is past that timeout. *)
Lemma WaitFor_largest_timeout_never_fails :
  (forall fuel,
      still_running (WaitFor machine_clock_read fuel never_ready returns
                             maxDuration (process_on machine0 [])) = true)
  /\ (forall fuel,
        calls is_fail
              (trace (final (WaitFor machine_clock_read fuel never_ready
                                     returns maxDuration
                                     (process_on machine0 [])))) = 0%nat)
  /\ (forall t, ~ Sub t 10 > maxDuration).
Proof.
  assert (H : forall fuel, exists w',
             WaitFor machine_clock_read fuel never_ready returns maxDuration
                     (process_on machine0 []) = OutOfFuel w'
             /\ calls is_fail (trace w') = 0%nat).
  { intros fuel.
    apply (WaitFor_past_maxDuration Machine machine_clock_read never_ready
             returns maxDuration (Z.le_refl _)).
    intros p. exists p. reflexivity. }
  split; [|split].
  - intros fuel. destruct (H fuel) as (w' & -> & _). reflexivity.
  - intros fuel. destruct (H fuel) as (w' & -> & Hcalls). exact Hcalls.
  - intros t Hgt. pose proof (Sub_bounds t 10). lia.
Qed.
